(** * Ultimate Weather AI: forecast aggregation, rain classifier and CLI flow

    A shallow embedding of [weather/app.py] (the Flask backend) and of
    [weather/weather_ai.py] (the command-line flow), with the properties
    its specification states about them.

    Conventions of the embedding.
    - Parsed JSON is the type [json]; Python exceptions are the type [exn];
      a Python expression that may raise is a value of [result].
    - Python numbers (int and float alike) are exact rationals [Q]:
      arithmetic is idealised. IEEE-754 rounding is modelled in [Binary64]
      only, for the temperature entries of a summary.
    - A calendar date is its proleptic Gregorian ordinal ([date.toordinal()]);
      [str(date)] is an injective rendering of it, so the dictionary keyed by
      [date_str] in the source is keyed by the ordinal here.
    - The clock, the local time zone, the hash order of a Python [set],
      the HTTP and geocoding services and scikit-learn's solvers are
      parameters of the sections below. *)

From Stdlib Require Import ZArith QArith Qround Qabs Lqa Lia List String Bool Sorted.
From stdpp Require Import gmap strings list fin_maps.
Import ListNotations.

Local Open Scope Z_scope.
Local Open Scope string_scope.

(* ===================================================================== *)
(** ** Python values, exceptions and the error monad                      *)
(* ===================================================================== *)

Module Py.

(** A value produced by [response.json()]. An object is the association
    list of its members (keys unique after parsing). *)
#[warnings="-register-all"]
Inductive json : Type :=
| JNull
| JBool (b : bool)
| JNum (q : Q)
| JStr (s : string)
| JArr (l : list json)
| JObj (kv : list (string * json)).

(** The exceptions the modelled code can meet. [KeyError] carries the key
    that was looked up, as Python's does. *)
Inductive exn : Type :=
| KeyError (k : json)
| TypeError
| IndexError
| AttributeError
| ValueError
| OSError.

Inductive result (A : Type) : Type :=
| Ok (a : A)
| Raise (e : exn).
Arguments Ok {A} a.
Arguments Raise {A} e.

Definition bind {A B} (r : result A) (k : A -> result B) : result B :=
  match r with
  | Ok a => k a
  | Raise e => Raise e
  end.

Definition is_ok {A} (r : result A) : bool :=
  match r with Ok _ => true | Raise _ => false end.

(** [for x in xs: acc = body(acc, x)], stopping at the first exception. *)
Fixpoint for_each {A S} (body : S -> A -> result S) (xs : list A) (acc : S)
  : result S :=
  match xs with
  | [] => Ok acc
  | x :: xs' => bind (body acc x) (for_each body xs')
  end.

(** [[f(x) for x in xs]], stopping at the first exception. *)
Fixpoint map_result {A B} (f : A -> result B) (xs : list A) : result (list B) :=
  match xs with
  | [] => Ok []
  | x :: xs' =>
      bind (f x) (fun y => bind (map_result f xs') (fun ys => Ok (y :: ys)))
  end.

End Py.
Export Py.

Notation "'let*' x ':=' e 'in' k" := (Py.bind e (fun x => k))
  (at level 10, x name, e at level 100, k at level 200).

(** *** Dictionaries *)

Definition dict := list (string * json).

Fixpoint dict_lookup (k : string) (d : dict) : option json :=
  match d with
  | [] => None
  | (k', v) :: d' => if String.eqb k k' then Some v else dict_lookup k d'
  end.

(** [k in d] *)
Definition dict_has (k : string) (d : dict) : bool :=
  match dict_lookup k d with Some _ => true | None => false end.

(** [d[k]] on a dictionary *)
Definition dict_getitem (d : dict) (k : string) : result json :=
  match dict_lookup k d with
  | Some v => Ok v
  | None => Raise (KeyError (JStr k))
  end.

(** [d.get(k, default)] on a dictionary *)
Definition dict_get (d : dict) (k : string) (default : json) : json :=
  match dict_lookup k d with
  | Some v => v
  | None => default
  end.

(** *** Operations on arbitrary JSON values *)

(** [bool(v)] *)
Definition truthy (v : json) : bool :=
  match v with
  | JNull => false
  | JBool b => b
  | JNum q => negb (Qeq_bool q 0)
  | JStr s => negb (String.eqb s "")
  | JArr l => match l with [] => false | _ => true end
  | JObj kv => match kv with [] => false | _ => true end
  end.

(** [v[k]] with a string key: only a dict can be indexed by a string. *)
Definition getitem (v : json) (k : string) : result json :=
  match v with
  | JObj kv => dict_getitem kv k
  | _ => Raise TypeError
  end.

(** [v[0]]: a list or a string is indexed by position, a dict looks the
    integer up as a key (no JSON object has one). *)
Definition getitem0 (v : json) : result json :=
  match v with
  | JArr [] => Raise IndexError
  | JArr (x :: _) => Ok x
  | JStr EmptyString => Raise IndexError
  | JStr (String c _) => Ok (JStr (String c EmptyString))
  | JObj _ => Raise (KeyError (JNum 0))
  | _ => Raise TypeError
  end.

(** [v.get(k, default)]: a method of dict only. *)
Definition get_method (v : json) (k : string) (default : json) : result json :=
  match v with
  | JObj kv => Ok (dict_get kv k default)
  | _ => Raise AttributeError
  end.

(** [iter(v)]: the items of a list, the keys of a dict, the characters of
    a string. *)
Fixpoint chars (s : string) : list json :=
  match s with
  | EmptyString => []
  | String c s' => JStr (String c EmptyString) :: chars s'
  end.

Definition py_iter (v : json) : result (list json) :=
  match v with
  | JArr l => Ok l
  | JObj kv => Ok (map (fun p => JStr (fst p)) kv)
  | JStr s => Ok (chars s)
  | _ => Raise TypeError
  end.

(** A Python number: int, float or bool ([True == 1]). *)
Definition as_number (v : json) : option Q :=
  match v with
  | JNum q => Some q
  | JBool b => Some (if b then 1%Q else 0%Q)
  | _ => None
  end.

(** [==] on the hashable JSON values. *)
Definition py_eqb (a b : json) : bool :=
  match a, b with
  | JNull, JNull => true
  | JStr s, JStr t => String.eqb s t
  | JArr _, _ | JObj _, _ | _, JArr _ | _, JObj _ => false
  | _, _ =>
      match as_number a, as_number b with
      | Some x, Some y => Qeq_bool x y
      | _, _ => false
      end
  end.

Definition hashable (v : json) : bool :=
  match v with
  | JArr _ | JObj _ => false
  | _ => true
  end.

(** [l.count(x)] *)
Definition count (l : list json) (x : json) : nat :=
  length (List.filter (fun y => py_eqb y x) l).

(* ===================================================================== *)
(** ** Numbers: rounding, truncation, mean, minimum and maximum           *)
(* ===================================================================== *)

(** Round to the nearest integer, ties to the even one: the rule both
    Python's [round] and numpy's [rint] follow. *)
Definition round_half_even (x : Q) : Z :=
  let f := Qfloor x in
  match Qcompare (x - inject_Z f) (1 # 2) with
  | Lt => f
  | Gt => f + 1
  | Eq => if Z.even f then f else f + 1
  end.

(** [round(x, ndigits)] for [ndigits >= 0]. *)
Definition py_round (x : Q) (ndigits : nat) : Q :=
  let scale := inject_Z (10 ^ Z.of_nat ndigits) in
  inject_Z (round_half_even (x * scale)) / scale.

(** [int(x)]: truncation toward zero. *)
Definition py_int (x : Q) : Z :=
  if Qle_bool 0 x then Qfloor x else Qceiling x.

Definition Qsum (l : list Q) : Q := fold_right Qplus 0%Q l.

(** The arithmetic mean of a non-empty list. *)
Definition Qmean (l : list Q) : Q := Qsum l / inject_Z (Z.of_nat (length l)).

(** [min(l)] and [max(l)] keep the first of equal candidates. *)
Fixpoint Qmin_list (x : Q) (l : list Q) : Q :=
  match l with
  | [] => x
  | y :: l' => Qmin_list (if Qlt_le_dec y x then y else x) l'
  end.

Fixpoint Qmax_list (x : Q) (l : list Q) : Q :=
  match l with
  | [] => x
  | y :: l' => Qmax_list (if Qlt_le_dec x y then y else x) l'
  end.

(** All the values of a list as numbers, or [None] if one is not. *)
Fixpoint as_numbers (l : list json) : option (list Q) :=
  match l with
  | [] => Some []
  | v :: l' =>
      match as_number v, as_numbers l' with
      | Some q, Some qs => Some (q :: qs)
      | _, _ => None
      end
  end.

(** [np.mean(l)] on a list of JSON scalars. numpy returns [nan] for an
    empty list, which the next numeric step rejects with [ValueError]; a
    null, a string or an object is a [TypeError]. Nested arrays, which numpy
    would flatten, are outside the model and rejected the same way. *)
Definition np_mean (l : list json) : result Q :=
  match as_numbers l with
  | Some [] => Raise ValueError
  | Some qs => Ok (Qmean qs)
  | None => Raise TypeError
  end.

(** [round(min(l), ndigits)]: every comparison of a number with a
    non-number and every [round] of a non-number is a [TypeError];
    [min] of an empty list is a [ValueError]. *)
Definition round_min (l : list json) (ndigits : nat) : result Q :=
  match as_numbers l with
  | Some [] => Raise ValueError
  | Some (q :: qs) => Ok (py_round (Qmin_list q qs) ndigits)
  | None => Raise TypeError
  end.

Definition round_max (l : list json) (ndigits : nat) : result Q :=
  match as_numbers l with
  | Some [] => Raise ValueError
  | Some (q :: qs) => Ok (py_round (Qmax_list q qs) ndigits)
  | None => Raise TypeError
  end.

(** [round(v, ndigits)] on one JSON value. *)
Definition round_json (v : json) (ndigits : nat) : result Q :=
  match as_number v with
  | Some q => Ok (py_round q ndigits)
  | None => Raise TypeError
  end.

(* ===================================================================== *)
(** ** weather/app.py: the rain classifier                                *)
(* ===================================================================== *)

(** A fitted scikit-learn [LogisticRegression]: [predict_proba] maps one
    feature row to the pair of class probabilities (class 0, class 1). *)
Record LogisticRegression : Type := {
  predict_proba : Q -> Q -> Q -> Q -> Q * Q
}.

(** What scikit-learn documents of [predict_proba]: a probability. *)
Definition proba_in_unit_interval (model : LogisticRegression) : Prop :=
  forall h c p w, (0 <= snd (predict_proba model h c p w) <= 1)%Q.

Definition X_train : list (list Q) := [
  [80; 90; 1005; 5];
  [75; 85; 1008; 4];
  [70; 75; 1010; 3];
  [30; 20; 1020; 2];
  [25; 15; 1022; 1];
  [35; 25; 1018; 2];
  [85; 95; 1000; 6];
  [20; 10; 1025; 1];
  [65; 60; 1012; 3];
  [90; 100; 995; 8]
]%Q.

Definition y_train : list Z := [1; 1; 1; 0; 0; 0; 1; 0; 1; 1].

Section RainClassifier.

(** numpy's random generator state, the generator a seed builds, and the
    solver behind [LogisticRegression.fit], which draws from the generator
    it is handed. *)
Variable RandomState : Type.
Variable seeded : Z -> RandomState.
Variable solver_fit : RandomState -> list (list Q) -> list Z -> LogisticRegression.

(** [sklearn.utils.check_random_state]: an integer seeds a fresh generator,
    [None] means the process-wide one. *)
Definition check_random_state (random_state : option Z) (ambient : RandomState)
  : RandomState :=
  match random_state with
  | Some seed => seeded seed
  | None => ambient
  end.

(** [LogisticRegression(random_state=...).fit(X, y)], run while the
    process-wide generator is in state [ambient]. *)
Definition LogisticRegression_fit (random_state : option Z)
    (ambient : RandomState) (X : list (list Q)) (y : list Z)
  : LogisticRegression :=
  solver_fit (check_random_state random_state ambient) X y.

Definition train_rain_prediction_model (ambient : RandomState)
  : LogisticRegression :=
  LogisticRegression_fit (Some 42) ambient X_train y_train.

End RainClassifier.

Definition predict_rain_probability (model : LogisticRegression)
    (humidity cloudiness pressure wind_speed : Q) : Q :=
  let probability :=
    (snd (predict_proba model humidity cloudiness pressure wind_speed) * 100)%Q in
  py_round probability 1.

(* ===================================================================== *)
(** ** weather/app.py: the daily aggregator                               *)
(* ===================================================================== *)

(** One entry of [daily_forecasts]: the lists hold the raw JSON values in
    reading order. *)
Module Bucket.
Record t : Type := mk {
  date : Z;
  temps : list json;
  humidities : list json;
  cloud_cover : list json;
  pressures : list json;
  wind_speeds : list json;
  descriptions : list json;
  icons : list json
}.
Definition empty (d : Z) : t := mk d [] [] [] [] [] [] [].
End Bucket.

(** One element of the list [process_forecast_data] returns. *)
Record DailySummary : Type := {
  date : Z;
  day : string;
  min_temp : Q;
  max_temp : Q;
  avg_temp : Q;
  humidity : Z;
  cloud_cover : Z;
  wind_speed : Q;
  condition : json;
  icon : json;
  rain_probability : Q;
  will_rain : bool
}.

(** [target_date.strftime("%A")]: ordinal 1 (0001-01-01) is a Monday. *)
Definition weekday_name (ordinal : Z) : string :=
  match (ordinal + 6) mod 7 with
  | 0 => "Monday"
  | 1 => "Tuesday"
  | 2 => "Wednesday"
  | 3 => "Thursday"
  | 4 => "Friday"
  | 5 => "Saturday"
  | _ => "Sunday"
  end.

(** [max(xs, key=key)]: the first element, in iteration order, whose key
    no other element exceeds. *)
Fixpoint max_by_from (key : json -> nat) (best : json) (xs : list json) : json :=
  match xs with
  | [] => best
  | x :: xs' =>
      max_by_from key (if (key best <? key x)%nat then x else best) xs'
  end.

Definition max_by (key : json -> nat) (xs : list json) : result json :=
  match xs with
  | [] => Raise ValueError
  | x :: xs' => Ok (max_by_from key x xs')
  end.

(** [x in v] for a string [x]. *)
Definition contains_str (v : json) (x : string) : result bool :=
  match v with
  | JObj kv => Ok (dict_has x kv)
  | JArr l => Ok (existsb (fun y => py_eqb y (JStr x)) l)
  | JStr s => Ok (match String.index 0 x s with Some _ => true | None => false end)
  | _ => Raise TypeError
  end.

(** The values the grouping loop takes from one reading. *)
Record Reading : Type := {
  r_date : Z;
  r_temp : json;
  r_humidity : json;
  r_cloud : json;
  r_pressure : json;
  r_wind : json;
  r_descr : json;
  r_icon : json
}.

Definition append_reading (data : Bucket.t) (r : Reading) : Bucket.t :=
  Bucket.mk (Bucket.date data)
    (Bucket.temps data ++ [r_temp r])
    (Bucket.humidities data ++ [r_humidity r])
    (Bucket.cloud_cover data ++ [r_cloud r])
    (Bucket.pressures data ++ [r_pressure r])
    (Bucket.wind_speeds data ++ [r_wind r])
    (Bucket.descriptions data ++ [r_descr r])
    (Bucket.icons data ++ [r_icon r]).

(** [if date_str not in daily_forecasts: ...] followed by the appends. *)
Definition add_reading (daily_forecasts : gmap Z Bucket.t) (r : Reading)
  : gmap Z Bucket.t :=
  let d := r_date r in
  let data := default (Bucket.empty d) (daily_forecasts !! d) in
  <[d := append_reading data r]> daily_forecasts.

Section Aggregator.

Variable RandomState : Type.
Variable seeded : Z -> RandomState.
Variable solver_fit : RandomState -> list (list Q) -> list Z -> LogisticRegression.
Variable ambient : RandomState.

(** [datetime.fromtimestamp(ts).date()] in the local time zone, as an
    ordinal; the platform rejects timestamps out of its range. *)
Variable fromtimestamp_date : Q -> result Z.

(** [datetime.now().date()] *)
Variable today : Z.

(** [list(set(l))]: the order in which a set built from [l] is iterated.
    It depends on the hashes of the elements, not on the order of [l]. *)
Variable set_iter : list json -> list json.

(** [set(l)]: every element must be hashable. *)
Definition py_set (l : list json) : result (list json) :=
  if forallb hashable l then Ok (set_iter l) else Raise TypeError.

Definition date_of_item (item : json) : result Z :=
  let* dt := getitem item "dt" in
  match as_number dt with
  | Some ts => fromtimestamp_date ts
  | None => Raise TypeError
  end.

(** What one pass of the grouping loop reads from [item], in the order of
    the source: the date, then the seven appended values. *)
Definition read_item (item : json) : result Reading :=
  let* d := date_of_item item in
  let* main := getitem item "main" in
  let* temp := getitem main "temp" in
  let* main := getitem item "main" in
  let* hum := getitem main "humidity" in
  let* clouds := getitem item "clouds" in
  let* cloud := getitem clouds "all" in
  let* main := getitem item "main" in
  let* pressure := getitem main "pressure" in
  let* wind := getitem item "wind" in
  let* speed := getitem wind "speed" in
  let* weather := getitem item "weather" in
  let* w0 := getitem0 weather in
  let* descr := getitem w0 "main" in
  let* weather := getitem item "weather" in
  let* w0 := getitem0 weather in
  let* ic := getitem w0 "icon" in
  Ok {| r_date := d; r_temp := temp; r_humidity := hum; r_cloud := cloud;
        r_pressure := pressure; r_wind := speed; r_descr := descr;
        r_icon := ic |}.

(** The body of the grouping loop: the bucket of the reading's date is
    created when missing and the seven values are appended. An exception
    leaves [process_forecast_data], so a partly updated dictionary is never
    observed and the appends are written as one update. *)
Definition group_item (daily_forecasts : gmap Z Bucket.t) (item : json)
  : result (gmap Z Bucket.t) :=
  let* r := read_item item in
  Ok (add_reading daily_forecasts r).

(** The summary of one target day that has a bucket. *)
Definition summarize (model : LogisticRegression) (target_date : Z)
    (data : Bucket.t) : result DailySummary :=
  let* avg_humidity := np_mean (Bucket.humidities data) in
  let* avg_cloud := np_mean (Bucket.cloud_cover data) in
  let* avg_pressure := np_mean (Bucket.pressures data) in
  let* avg_wind := np_mean (Bucket.wind_speeds data) in
  let rain_prob :=
    predict_rain_probability model avg_humidity avg_cloud avg_pressure avg_wind in
  let* mn := round_min (Bucket.temps data) 1 in
  let* mx := round_max (Bucket.temps data) 1 in
  let* avg := np_mean (Bucket.temps data) in
  let* distinct := py_set (Bucket.descriptions data) in
  let* cond := max_by (count (Bucket.descriptions data)) distinct in
  let* ic := getitem0 (JArr (Bucket.icons data)) in
  Ok {| date := target_date;
        day := weekday_name target_date;
        min_temp := mn;
        max_temp := mx;
        avg_temp := py_round avg 1;
        humidity := py_int avg_humidity;
        cloud_cover := py_int avg_cloud;
        wind_speed := py_round avg_wind 1;
        condition := cond;
        icon := ic;
        rain_probability := rain_prob;
        will_rain := negb (Qle_bool rain_prob 50) |}.

(** The body of [for i in range(1, 5)]. *)
Definition summary_step (model : LogisticRegression)
    (daily_forecasts : gmap Z Bucket.t) (res : list DailySummary) (i : Z)
  : result (list DailySummary) :=
  let target_date := today + i in
  match daily_forecasts !! target_date with
  | Some data =>
      let* s := summarize model target_date data in
      Ok (res ++ [s])%list
  | None => Ok res
  end.

Definition process_forecast_data (forecast_data : json)
  : result (list DailySummary) :=
  if negb (truthy forecast_data) then Ok [] else
  let* has_list := contains_str forecast_data "list" in
  if negb has_list then Ok [] else
  let model := train_rain_prediction_model RandomState seeded solver_fit ambient in
  let* readings := getitem forecast_data "list" in
  let* items := py_iter readings in
  let* daily_forecasts := for_each group_item items ∅ in
  for_each (summary_step model daily_forecasts) [1; 2; 3; 4] [].

(** *** Vocabulary for the statements about the aggregator *)

(** The readings the grouping loop goes through: none when the guard at the
    top of [process_forecast_data] returns early. *)
Definition readings_of (forecast_data : json) : result (list Reading) :=
  if negb (truthy forecast_data) then Ok [] else
  let* has_list := contains_str forecast_data "list" in
  if negb has_list then Ok [] else
  let* readings := getitem forecast_data "list" in
  let* items := py_iter readings in
  map_result read_item items.

End Aggregator.

(** The readings of date [d], in reading order. *)
Definition readings_on (rs : list Reading) (d : Z) : list Reading :=
  List.filter (fun r => Z.eqb (r_date r) d) rs.

(** The daily bucket of date [d]: its readings' values in reading order. *)
Definition daily_bucket (rs : list Reading) (d : Z) : Bucket.t :=
  fold_left append_reading (readings_on rs d) (Bucket.empty d).

(** Date [d] has at least one reading. *)
Definition covered (rs : list Reading) (d : Z) : bool :=
  existsb (fun r => Z.eqb (r_date r) d) rs.

(** today+1 .. today+4 *)
Definition target_dates (today : Z) : list Z :=
  map (fun i => today + i) [1; 2; 3; 4].

(** A reading whose numeric fields are numbers and whose description and
    icon are strings, as the provider documents them. *)
Definition is_number (v : json) : bool :=
  match as_number v with Some _ => true | None => false end.

Definition is_string (v : json) : bool :=
  match v with JStr _ => true | _ => false end.

Definition well_typed_reading (r : Reading) : bool :=
  is_number (r_temp r) && is_number (r_humidity r) && is_number (r_cloud r)
  && is_number (r_pressure r) && is_number (r_wind r)
  && is_string (r_descr r) && is_string (r_icon r).

(** What [set_iter] must satisfy to be the iteration order of a set of
    strings: it lists exactly the elements of [l], each once. *)
Definition set_order (set_iter : list json -> list json) : Prop :=
  forall l, forallb is_string l = true ->
    List.NoDup (set_iter l) /\ forall x, In x (set_iter l) <-> In x l.

(** [n] is [x] truncated toward zero. *)
Definition truncation_of (x : Q) (n : Z) : Prop :=
  ((0 <= x -> inject_Z n <= x < inject_Z n + 1) /\
   (x < 0 -> inject_Z n - 1 < x <= inject_Z n))%Q.

(** *** The tie-break of the specification *)

(** The distinct values of [l] in the order in which they are first seen. *)
Fixpoint first_seen (l : list json) : list json :=
  match l with
  | [] => []
  | x :: l' => x :: List.filter (fun y => negb (py_eqb y x)) (first_seen l')
  end.

(** The specification's condition label: the most frequent description,
    ties resolved by the order in which distinct values were first seen. *)
Definition mode_first_seen (descs : list json) : result json :=
  max_by (count descs) (first_seen descs).

(* ===================================================================== *)
(** ** weather/app.py: location, fetch and the forecast endpoint          *)
(* ===================================================================== *)

(** What the endpoint reads of a geocoder answer [g]: [g.city],
    [g.country] and [g.latlng], each possibly [None]. *)
Record GeoResult : Type := {
  g_city : option string;
  g_country : option string;
  g_latlng : option (Q * Q)
}.

(** The location dictionary with its four keys. *)
Record Location : Type := {
  loc_city : string;
  loc_country : string;
  loc_lat : Q;
  loc_lng : Q
}.

(** [s or "Unknown"] *)
Definition or_unknown (s : option string) : string :=
  match s with
  | Some (String c r) => String c r
  | _ => "Unknown"
  end.

(** The JSON body of a response of the forecast endpoint (the timestamp
    is left out). *)
Inductive body : Type :=
| ErrorBody (error : string)
| ExceptionBody (e : exn)
| ForecastBody (location : option Location) (forecast : list DailySummary).

Section Endpoint.

Variable RandomState : Type.
Variable seeded : Z -> RandomState.
Variable solver_fit : RandomState -> list (list Q) -> list Z -> LogisticRegression.
Variable ambient : RandomState.
Variable fromtimestamp_date : Q -> result Z.
Variable today : Z.
Variable set_iter : list json -> list json.

(** The environment variable, read once at start. *)
Variable API_KEY : option string.

(** [geocoder.ip("me")] and [geocoder.reverse_geocode(lat, lng)]: an
    exception, a falsy answer ([None]) or an answer. *)
Variable geocoder_ip : result (option GeoResult).
Variable geocoder_reverse_geocode : Q -> Q -> result (option GeoResult).

(** [requests.get(FORECAST_URL, ...)], [raise_for_status()] and [.json()]
    for a coordinate pair: the parsed body or an exception. *)
Variable forecast_request : Q -> Q -> result json.

Definition get_location_from_ip : option Location :=
  match geocoder_ip with
  | Ok (Some g) =>
      match g_latlng g with
      | Some (la, ln) =>
          Some {| loc_city := or_unknown (g_city g);
                  loc_country := or_unknown (g_country g);
                  loc_lat := la; loc_lng := ln |}
      | None => None
      end
  | Ok None => None
  | Raise _ => None
  end.

Definition get_location_from_coordinates (lat lng : Q) : option Location :=
  match geocoder_reverse_geocode lat lng with
  | Ok (Some g) =>
      Some {| loc_city := or_unknown (g_city g);
              loc_country := or_unknown (g_country g);
              loc_lat := lat; loc_lng := lng |}
  | Ok None => None
  | Raise _ => None
  end.

(** [not API_KEY]: unset or empty. *)
Definition api_key_missing : bool :=
  match API_KEY with
  | Some (String _ _) => false
  | _ => true
  end.

Definition fetch_forecast (lat lng : Q) : option json :=
  if api_key_missing then None else
  match forecast_request lat lng with
  | Ok data => Some data
  | Raise _ => None
  end.

(** [location[k]] where [location] may be [None]. *)
Definition subscript_location (location : option Location)
    (field : Location -> Q) : result Q :=
  match location with
  | Some l => Ok (field l)
  | None => Raise TypeError
  end.

(** The [try] block of [get_forecast]: a response, or the exception that
    reaches the [except] clause. [lat] and [lng] are the query parameters
    parsed as floats, [None] when absent or unparsable. *)
Definition get_forecast_try (lat lng : option Q) : result (Z * body) :=
  let after_location (location : option Location) : result (Z * body) :=
    if api_key_missing then Ok (500, ErrorBody "API key not configured") else
    let* la := subscript_location location loc_lat in
    let* ln := subscript_location location loc_lng in
    match fetch_forecast la ln with
    | None => Ok (500, ErrorBody "Could not fetch forecast")
    | Some forecast_data =>
        if negb (truthy forecast_data)
        then Ok (500, ErrorBody "Could not fetch forecast")
        else
          let* forecast :=
            process_forecast_data RandomState seeded solver_fit ambient
              fromtimestamp_date today set_iter forecast_data in
          Ok (200, ForecastBody location forecast)
    end in
  match lat, lng with
  | Some la, Some ln => after_location (get_location_from_coordinates la ln)
  | _, _ =>
      match get_location_from_ip with
      | None => Ok (400, ErrorBody "Could not detect location")
      | Some l => after_location (Some l)
      end
  end.

(** [get_forecast]: [except Exception as e] answers 500 with [str(e)]. *)
Definition get_forecast (lat lng : option Q) : Z * body :=
  match get_forecast_try lat lng with
  | Ok response => response
  | Raise e => (500, ExceptionBody e)
  end.

End Endpoint.

(* ===================================================================== *)
(** ** weather/weather_ai.py: the feels-like estimator                    *)
(* ===================================================================== *)

(** A fitted scikit-learn [LinearRegression] on two features. *)
Record LinearRegression : Type := {
  coef_humidity : Q;
  coef_temp : Q;
  intercept : Q
}.

Definition Qdot (a b : list Q) : Q :=
  Qsum (map (fun p => (fst p * snd p)%Q) (combine a b)).

(** [LinearRegression().fit(X, y)] in exact arithmetic: scikit-learn
    centres the columns of [X] and [y], solves the least-squares problem on
    the centred data and recovers the intercept from the means. With a
    non-singular Gram matrix the least-squares solution is the solution of
    the normal equations, written here with Cramer's rule. (For a singular
    one the library returns the minimum-norm solution; that case is outside
    the model.) *)
Definition LinearRegression_fit (X : list (Q * Q)) (y : list Q)
  : LinearRegression :=
  let hs := map fst X in
  let ts := map snd X in
  let h_offset := Qmean hs in
  let t_offset := Qmean ts in
  let y_offset := Qmean y in
  let hc := map (fun h => (h - h_offset)%Q) hs in
  let tc := map (fun t => (t - t_offset)%Q) ts in
  let yc := map (fun v => (v - y_offset)%Q) y in
  let shh := Qdot hc hc in
  let sht := Qdot hc tc in
  let stt := Qdot tc tc in
  let shy := Qdot hc yc in
  let sty := Qdot tc yc in
  let det := (shh * stt - sht * sht)%Q in
  let wh := ((shy * stt - sty * sht) / det)%Q in
  let wt := ((sty * shh - shy * sht) / det)%Q in
  {| coef_humidity := wh;
     coef_temp := wt;
     intercept := (y_offset - (h_offset * wh + t_offset * wt))%Q |}.

(** The determinant of the Gram matrix of the centred features: the
    least-squares solution is unique exactly when it is not zero. *)
Definition gram_det (X : list (Q * Q)) : Q :=
  let hs := map fst X in
  let ts := map snd X in
  let hc := map (fun h => (h - Qmean hs)%Q) hs in
  let tc := map (fun t => (t - Qmean ts)%Q) ts in
  (Qdot hc hc * Qdot tc tc - Qdot hc tc * Qdot hc tc)%Q.

(** [model.predict([[humidity, temperature]])[0]] *)
Definition predict (model : LinearRegression) (humidity temperature : Q) : Q :=
  (intercept model + (coef_humidity model * humidity
                      + coef_temp model * temperature))%Q.

(** The sum of squared residuals of [model] on a data set. *)
Definition squared_error (model : LinearRegression) (X : list (Q * Q))
    (y : list Q) : Q :=
  Qsum (map (fun p => let r := (snd p - predict model (fst (fst p)) (snd (fst p)))%Q
                      in (r * r)%Q)
            (combine X y)).

Definition training_humidity : list Q :=
  [30; 40; 50; 60; 70; 80; 90;
   35; 45; 55; 65; 75; 85; 95]%Q.

Definition training_temp : list Q :=
  [15; 18; 20; 22; 25; 28; 30;
   10; 12; 14; 16; 18; 20; 22]%Q.

(** [training_temp * 0.9 + (training_humidity / 100) * 3], elementwise. *)
Definition training_feels_like : list Q :=
  map (fun p => (fst p * 0.9 + (snd p / 100) * 3)%Q)
      (combine training_temp training_humidity).

Definition train_prediction_model : LinearRegression :=
  let X := combine training_humidity training_temp in
  let y := training_feels_like in
  LinearRegression_fit X y.

Definition predict_feels_like (model : LinearRegression)
    (humidity temperature : Q) : Q :=
  let prediction := predict model humidity temperature in
  py_round prediction 2.

(* ===================================================================== *)
(** ** weather/weather_ai.py: extraction, display and [main]              *)
(* ===================================================================== *)

(** How a run of the command-line program ends. *)
Inductive outcome : Type :=
| LocationFailed
| FetchFailed
| NothingDisplayed
| Reported (weather : dict) (ai_prediction difference : Q) (symbol : string)
| Fatal (e : exn).

Section CommandLine.

(** [str.title()] *)
Variable title : string -> string.

Definition title_method (v : json) : result json :=
  match v with
  | JStr s => Ok (JStr (title s))
  | _ => Raise AttributeError
  end.

(** The [try] block of [extract_weather_info]: the entries of the
    dictionary display are evaluated in order. *)
Definition extract_weather_info_try (data : json) : result dict :=
  let* city := get_method data "name" (JStr "Unknown") in
  let* sys := get_method data "sys" (JObj []) in
  let* country := get_method sys "country" (JStr "") in
  let* main := getitem data "main" in
  let* temp := getitem main "temp" in
  let* temperature := round_json temp 2 in
  let* main := getitem data "main" in
  let* hum := getitem main "humidity" in
  let* wind := getitem data "wind" in
  let* speed := getitem wind "speed" in
  let* wind_speed := round_json speed 2 in
  let* main := getitem data "main" in
  let* fl := getitem main "feels_like" in
  let* feels_like := round_json fl 2 in
  let* weather := getitem data "weather" in
  let* w0 := getitem0 weather in
  let* descr := getitem w0 "description" in
  let* description := title_method descr in
  let* main := getitem data "main" in
  let* pressure := getitem main "pressure" in
  Ok [("city", city);
      ("country", country);
      ("temperature", JNum temperature);
      ("humidity", hum);
      ("wind_speed", JNum wind_speed);
      ("feels_like", JNum feels_like);
      ("description", description);
      ("pressure", pressure)].

(** [except KeyError: return {}]; any other exception propagates. *)
Definition extract_weather_info (data : json) : result dict :=
  match extract_weather_info_try data with
  | Ok weather_info => Ok weather_info
  | Raise (KeyError _) => Ok []
  | Raise e => Raise e
  end.

(** [display_weather_summary]: nothing for an empty dictionary, otherwise
    the report, for which every printed key is looked up. *)
Definition display_weather_summary (location : string) (weather : dict)
    (ai_prediction : Q) : result outcome :=
  match weather with
  | [] => Ok NothingDisplayed
  | _ =>
      let* _ := dict_getitem weather "city" in
      let* _ := dict_getitem weather "country" in
      let* _ := dict_getitem weather "temperature" in
      let* _ := dict_getitem weather "feels_like" in
      let* _ := dict_getitem weather "wind_speed" in
      let* _ := dict_getitem weather "humidity" in
      let* _ := dict_getitem weather "pressure" in
      let* _ := dict_getitem weather "description" in
      let* fl := dict_getitem weather "feels_like" in
      match as_number fl with
      | None => Raise TypeError
      | Some feels =>
          let difference := (ai_prediction - feels)%Q in
          let symbol :=
            if Qlt_le_dec 0 difference then "[UP]"
            else if Qlt_le_dec difference 0 then "[DOWN]" else "[SAME]" in
          Ok (Reported weather ai_prediction difference symbol)
      end
  end.

(** The collaborators of [main]: [get_user_location()] and
    [fetch_weather_data(lat, lng)], which absorb their own failures into
    [None]. *)
Variable get_user_location : option (string * Q * Q).
Variable fetch_weather_data : Q -> Q -> option json.

(** The features handed to the regressor must be numbers; scikit-learn's
    input validation rejects anything else. *)
Definition feature (v : json) : result Q :=
  match as_number v with
  | Some q => Ok q
  | None => Raise ValueError
  end.

Definition main : result outcome :=
  match get_user_location with
  | None => Ok LocationFailed
  | Some (city, lat, lng) =>
      match fetch_weather_data lat lng with
      | None => Ok FetchFailed
      | Some weather_raw =>
          if negb (truthy weather_raw) then Ok FetchFailed else
          let* weather_info := extract_weather_info weather_raw in
          let model := train_prediction_model in
          let* hum := dict_getitem weather_info "humidity" in
          let* temp := dict_getitem weather_info "temperature" in
          let* humidity := feature hum in
          let* temperature := feature temp in
          let ai_prediction := predict_feels_like model humidity temperature in
          display_weather_summary city weather_info ai_prediction
      end
  end.

(** [if __name__ == "__main__"]: any exception of [main] reaches the
    top-level handler, which prints the fatal error. *)
Definition run : outcome :=
  match main with
  | Ok o => o
  | Raise e => Fatal e
  end.

End CommandLine.

(** *** Vocabulary for the statements about the extraction *)

(** The member [k] of the object [v], if [v] is an object that has it. *)
Definition member (v : json) (k : string) : option json :=
  match v with
  | JObj kv => dict_lookup k kv
  | _ => None
  end.

(** A member that is absent or satisfies [p]. *)
Definition absent_or (p : json -> bool) (o : option json) : bool :=
  match o with
  | None => true
  | Some v => p v
  end.

Definition is_object (v : json) : bool :=
  match v with JObj _ => true | _ => false end.

(** The first element of [v] when [v] is a non-empty array of objects. *)
Definition first_weather (v : json) : option json :=
  match v with
  | JArr (JObj w :: _) => Some (JObj w)
  | _ => None
  end.

(** A current-weather payload in which every member that is present has
    the type the provider documents: an object; "sys", "main" and "wind"
    objects; "temp", "feels_like" and "speed" numbers; "weather" a non-empty
    array whose first element is an object with a string "description". *)
Definition well_shaped (data : json) : bool :=
  is_object data
  && absent_or is_object (member data "sys")
  && absent_or (fun m => is_object m
                         && absent_or is_number (member m "temp")
                         && absent_or is_number (member m "feels_like"))
               (member data "main")
  && absent_or (fun w => is_object w
                         && absent_or is_number (member w "speed"))
               (member data "wind")
  && absent_or (fun ws => match first_weather ws with
                          | Some w0 => absent_or is_string (member w0 "description")
                          | None => false
                          end)
               (member data "weather").

Definition present (o : option json) : bool :=
  match o with Some _ => true | None => false end.

(** Every member [extract_weather_info] indexes is present. *)
Definition has_required_fields (data : json) : bool :=
  match member data "main", member data "wind", member data "weather" with
  | Some m, Some w, Some ws =>
      present (member m "temp") && present (member m "humidity")
      && present (member w "speed") && present (member m "feels_like")
      && match first_weather ws with
         | Some w0 => present (member w0 "description")
         | None => false
         end
      && present (member m "pressure")
  | _, _, _ => false
  end.

(** A reading of the forecast list lacks one of the members the grouping
    loop indexes. *)
Definition reading_lacks_field (item : json) : bool :=
  negb (present (member item "dt")
        && match member item "main" with
           | Some m => present (member m "temp") && present (member m "humidity")
                       && present (member m "pressure")
           | None => false
           end
        && match member item "clouds" with
           | Some c => present (member c "all")
           | None => false
           end
        && match member item "wind" with
           | Some w => present (member w "speed")
           | None => false
           end
        && match member item "weather" with
           | Some (JArr (w0 :: _)) =>
               present (member w0 "main") && present (member w0 "icon")
           | _ => false
           end).

(* ===================================================================== *)
(** ** Sample instances of the parameters                                 *)
(* ===================================================================== *)

Module Sample.

(** A machine on UTC: the date of a timestamp is its day count since
    1970-01-01, whose ordinal is 719163. *)
Definition utc_date (ts : Q) : result Z := Ok (Qfloor (ts / 86400) + 719163).

(** The clock reads 1970-01-01. *)
Definition today : Z := 719163.

(** A set that iterates in the reverse of the first-seen order. *)
Definition reverse_seen (l : list json) : list json := rev (first_seen l).

(** A fitted model whose rain probability is the humidity as a fraction,
    cut to the unit interval; the solver returns it whatever the data. *)
Definition clamp (x : Q) : Q :=
  if Qle_bool x 0 then 0%Q else if Qle_bool 1 x then 1%Q else x.

Definition humidity_model : LogisticRegression :=
  {| predict_proba := fun h _ _ _ => ((1 - clamp (h / 100))%Q, clamp (h / 100)) |}.

Definition fit (_ : unit) (_ : list (list Q)) (_ : list Z) : LogisticRegression :=
  humidity_model.

Definition process (set_iter : list json -> list json) (forecast_data : json)
  : result (list DailySummary) :=
  process_forecast_data unit (fun _ => tt) fit tt utc_date today set_iter
    forecast_data.

(** One well-formed entry of the provider's "list". *)
Definition reading (dt : Z) (temp hum cloud pressure wind : Q)
    (descr ic : string) : json :=
  JObj [("dt", JNum (inject_Z dt));
        ("main", JObj [("temp", JNum temp); ("humidity", JNum hum);
                       ("pressure", JNum pressure)]);
        ("clouds", JObj [("all", JNum cloud)]);
        ("wind", JObj [("speed", JNum wind)]);
        ("weather", JArr [JObj [("main", JStr descr); ("icon", JStr ic)]])].

(** Three readings on 1970-01-02, none on 01-03, one on 01-04 and on
    01-05, one on 01-06 (beyond the four target days). *)
Definition payload : json :=
  JObj [("cod", JStr "200");
        ("list", JArr [
           reading 90000 (201 # 10) 50 40 1012 (31 # 10) "Rain" "10d";
           reading 100800 (224 # 10) 51 75 1010 (42 # 10) "Clear" "01d";
           reading 111600 (187 # 10) 51 90 1009 (25 # 10) "Clear" "01n";
           reading 270000 (150 # 10) 80 100 1001 6 "Rain" "10d";
           reading 360000 (121 # 10) 30 10 1022 2 "Clear" "01d";
           reading 440000 (100 # 10) 30 10 1022 2 "Clear" "01d"])].

(** Two readings on 1970-01-02 whose descriptions tie. *)
Definition tie_payload : json :=
  JObj [("list", JArr [
           reading 90000 20 60 50 1010 3 "Rain" "10d";
           reading 100800 22 60 50 1010 3 "Clear" "01d"])].

(** What the grouping loop reads from the two payloads, and what the
    aggregator returns for the first one under [reverse_seen]. *)
Definition readings : list Reading :=
  Eval vm_compute in
    match readings_of utc_date payload with Ok rs => rs | Raise _ => [] end.

Definition tie_readings : list Reading :=
  Eval vm_compute in
    match readings_of utc_date tie_payload with Ok rs => rs | Raise _ => [] end.

Definition summaries : list DailySummary :=
  Eval vm_compute in
    match process reverse_seen payload with Ok res => res | Raise _ => [] end.

(** The endpoint's collaborators: a configured key, a provider that
    answers with [payload], an IP lookup that finds London and a reverse
    geocoder whose call raises. *)
Definition api_key : option string := Some "0123456789abcdef".

Definition forecast_request (_ _ : Q) : result json := Ok payload.

Definition ip_found : result (option GeoResult) :=
  Ok (Some {| g_city := Some "London"; g_country := Some "GB";
              g_latlng := Some (51.5, -0.12)%Q |}).

Definition ip_not_found : result (option GeoResult) := Ok None.

Definition reverse_fails (_ _ : Q) : result (option GeoResult) :=
  Raise AttributeError.

Definition get_forecast (key : option string)
    (ip : result (option GeoResult)) (lat lng : option Q) : Z * body :=
  get_forecast unit (fun _ => tt) fit tt utc_date today reverse_seen
    key ip reverse_fails forecast_request lat lng.

(** [str.title()] on ASCII text: a letter is upper-cased after a
    non-letter and lower-cased after a letter. *)
Definition is_upper (c : Ascii.ascii) : bool :=
  (65 <=? Ascii.nat_of_ascii c)%nat && (Ascii.nat_of_ascii c <=? 90)%nat.

Definition is_lower (c : Ascii.ascii) : bool :=
  (97 <=? Ascii.nat_of_ascii c)%nat && (Ascii.nat_of_ascii c <=? 122)%nat.

Definition to_upper (c : Ascii.ascii) : Ascii.ascii :=
  if is_lower c then Ascii.ascii_of_nat (Ascii.nat_of_ascii c - 32) else c.

Definition to_lower (c : Ascii.ascii) : Ascii.ascii :=
  if is_upper c then Ascii.ascii_of_nat (Ascii.nat_of_ascii c + 32) else c.

Fixpoint title_from (after_letter : bool) (s : string) : string :=
  match s with
  | EmptyString => EmptyString
  | String c r =>
      String (if after_letter then to_lower c else to_upper c)
             (title_from (is_upper c || is_lower c) r)
  end.

Definition ascii_title (s : string) : string := title_from false s.

(** A forecast list whose only reading has no "main" member. *)
Definition forecast_missing_main : json :=
  JObj [("list", JArr [JObj [("dt", JNum 90000)]])].

(** A complete current-weather payload, the same without "wind", and the
    same with an empty "weather" array. *)
Definition current_with (wind weather : list (string * json)) : json :=
  JObj ([("name", JStr "London");
         ("sys", JObj [("country", JStr "GB")]);
         ("main", JObj [("temp", JNum (1234 # 100)); ("humidity", JNum 65);
                        ("feels_like", JNum (118 # 10));
                        ("pressure", JNum 1012)])]
        ++ wind ++ weather).

Definition wind_member : list (string * json) :=
  [("wind", JObj [("speed", JNum (41 # 10))])].

Definition weather_member : list (string * json) :=
  [("weather", JArr [JObj [("description", JStr "light rain")]])].

Definition current : json := current_with wind_member weather_member.

Definition current_without_wind : json := current_with [] weather_member.

Definition current_empty_weather : json :=
  current_with wind_member [("weather", JArr [])].

(** A run of the command-line program in which the location is found
    and the provider answers [data]. *)
Definition run (data : json) : outcome :=
  run ascii_title (Some ("London", 51.5, -0.12)%Q) (fun _ _ => Some data).

End Sample.

(* ===================================================================== *)
(** ** The remaining entry points                                        *)
(* ===================================================================== *)

(** The JSON body of a response of [/api/location] (the timestamp is left
    out). *)
Inductive location_body : Type :=
| LocationError (error : string)
| LocationException (e : exn)
| LocationFound (location : Location).

(** [get_location] of [weather/app.py]: [get_location_from_ip] absorbs
    every exception of the geocoder, so the [except] clause of the endpoint
    has nothing to catch. *)
Definition get_location (geocoder_ip : result (option GeoResult))
  : Z * location_body :=
  match get_location_from_ip geocoder_ip with
  | None => (400, LocationError "Could not detect location")
  | Some location => (200, LocationFound location)
  end.

(** The location [get_forecast] works with is [l]: from reverse geocoding
    when both coordinates are given, from the IP lookup otherwise. *)
Definition located (geocoder_ip : result (option GeoResult))
    (geocoder_reverse_geocode : Q -> Q -> result (option GeoResult))
    (lat lng : option Q) (l : Location) : Prop :=
  match lat, lng with
  | Some la, Some ln =>
      get_location_from_coordinates geocoder_reverse_geocode la ln = Some l
  | _, _ => get_location_from_ip geocoder_ip = Some l
  end.

(** [get_user_location] of [weather/weather_ai.py]. *)
Definition get_user_location (geocoder_ip : result (option GeoResult))
  : option (string * Q * Q) :=
  match geocoder_ip with
  | Ok (Some g) =>
      match g_latlng g with
      | Some (lat, lng) =>
          let city := match g_city g with
                      | Some (String c r) => String c r
                      | _ => "Unknown City"
                      end in
          Some (city, lat, lng)
      | None => None
      end
  | Ok None => None
  | Raise _ => None
  end.

(** [fetch_weather_data] of [weather/weather_ai.py]: nothing is requested
    without a key, and every failure of the request is [None].
    [weather_request] stands for [requests.get], [raise_for_status] and
    [.json()]. *)
Definition fetch_weather_data (API_KEY : option string)
    (weather_request : Q -> Q -> result json) (lat lng : Q) : option json :=
  if api_key_missing API_KEY then None else
  match weather_request lat lng with
  | Ok data => Some data
  | Raise _ => None
  end.

(** The command-line program with its collaborators in place. *)
Definition run_program (title : string -> string)
    (geocoder_ip : result (option GeoResult)) (API_KEY : option string)
    (weather_request : Q -> Q -> result json) : outcome :=
  run title (get_user_location geocoder_ip)
    (fetch_weather_data API_KEY weather_request).

(** The keys of the dictionary [extract_weather_info] builds. *)
Definition weather_info_keys : list string :=
  ["city"; "country"; "temperature"; "humidity"; "wind_speed"; "feels_like";
   "description"; "pressure"].

(** [x] is within half a unit of the [n]-th decimal of [y] and has at
    most [n] decimals. *)
Definition rounded_to (n : nat) (x y : Q) : Prop :=
  ((exists k : Z, x == inject_Z k / inject_Z (10 ^ Z.of_nat n)) /\
   Qabs (x - y) <= (1 # 2) / inject_Z (10 ^ Z.of_nat n))%Q.

(** A summary with its condition label blanked. *)
Definition without_condition (s : DailySummary) : DailySummary :=
  {| date := date s; day := day s;
     min_temp := min_temp s; max_temp := max_temp s; avg_temp := avg_temp s;
     humidity := humidity s; cloud_cover := cloud_cover s;
     wind_speed := wind_speed s; condition := JNull; icon := icon s;
     rain_probability := rain_probability s; will_rain := will_rain s |}.

(* ===================================================================== *)
(** ** The temperature fields in binary64                                 *)
(* ===================================================================== *)

(** The three temperature entries of a summary, evaluated as the program
    evaluates them: on IEEE-754 binary64 numbers, a binary64 number being
    the rational it denotes. Only finite values are modelled. *)
Module Binary64.

(** The exponent [e] with [2^e <= a < 2^(e+1)], for [a > 0]. *)
Definition exponent (a : Q) : Z :=
  let e0 := Z.log2 (Qnum a) - Z.log2 (Zpos (Qden a)) in
  if Qle_bool (2 ^ e0) a then e0 else e0 - 1.

(** The binary64 number nearest to [x], ties to the even significand: 53
    significant bits, no exponent below that of the subnormals. *)
Definition round (x : Q) : Q :=
  if Qeq_bool x 0 then 0%Q else
  let a := Qabs x in
  let q := Z.max (exponent a - 52) (-1074) in
  let m := round_half_even (a / 2 ^ q) in
  let r := (inject_Z m * 2 ^ q)%Q in
  if Qle_bool 0 x then r else (- r)%Q.

(** The correctly rounded operations. *)
Definition add (x y : Q) : Q := round (x + y).
Definition mul (x y : Q) : Q := round (x * y).
Definition div (x y : Q) : Q := round (x / y).

(** [float(literal)]: how a decimal of the payload is read. *)
Definition of_decimal (x : Q) : Q := round x.

(** [round(x, ndigits)] on a Python float: the exact value of [x] is
    rounded to [ndigits] decimals, ties to even, and the decimal obtained is
    read back as the nearest float. *)
Definition float_round (x : Q) (ndigits : nat) : Q :=
  round (py_round x ndigits).

(** [round(x, ndigits)] on a [numpy.float64]: numpy scales by the power of
    ten, rounds to an integer with [rint] and divides back, each step in
    binary64. *)
Definition np_round (x : Q) (decimals : nat) : Q :=
  let factor := inject_Z (10 ^ Z.of_nat decimals) in
  div (inject_Z (round_half_even (mul x factor))) factor.

(** Adding from left to right, which is how numpy's reduction adds fewer
    than eight numbers. *)
Definition sum_left (l : list Q) : Q := fold_left add l 0%Q.

(** [np.mean(l)]: the sum divided by the count. The order in which numpy
    adds a longer list is the parameter [np_sum]. *)
Definition np_mean (np_sum : list Q -> Q) (l : list Q) : Q :=
  div (np_sum l) (inject_Z (Z.of_nat (length l))).

(** [round(min(temps), 1)], [round(max(temps), 1)] and
    [round(np.mean(temps), 1)] for the non-empty list [t :: ts]: the first
    two round a Python float, the third a [numpy.float64]. *)
Definition temperature_fields (np_sum : list Q -> Q) (t : Q) (ts : list Q)
  : Q * Q * Q :=
  (float_round (Qmin_list t ts) 1,
   float_round (Qmax_list t ts) 1,
   np_round (np_mean np_sum (t :: ts)) 1).

(** The same three entries for a day's bucket, whose temperatures are the
    payload's numbers read as floats. [None] for a bucket without a
    temperature or with a temperature that is not a number. *)
Definition summary_temperatures (np_sum : list Q -> Q) (data : Bucket.t)
  : option (Q * Q * Q) :=
  match as_numbers (Bucket.temps data) with
  | Some (t :: ts) =>
      Some (temperature_fields np_sum (of_decimal t) (map of_decimal ts))
  | _ => None
  end.

End Binary64.

(* ===================================================================== *)
(** ** Further sample inputs                                             *)
(* ===================================================================== *)

Module Example.

(** The items of the "list" of [Sample.payload]. *)
Definition items : list json :=
  Eval vm_compute in
    match getitem Sample.payload "list" with
    | Ok (JArr l) => l
    | _ => []
    end.

(** [Sample.payload] without its reading of 1970-01-06, and with one more
    reading dated today. *)
Definition payload_other_days : json :=
  JObj [("list", JArr (Sample.reading 3600 5 90 100 1000 9 "Snow" "13d"
                       :: removelast items))].

(** A payload whose only reading is dated today and whose values are not
    even numbers. *)
Definition payload_today : json :=
  JObj [("list", JArr [
     JObj [("dt", JNum 3600);
           ("main", JObj [("temp", JStr "n/a"); ("humidity", JNull);
                          ("pressure", JNull)]);
           ("clouds", JObj [("all", JNull)]);
           ("wind", JObj [("speed", JNull)]);
           ("weather", JArr [JObj [("main", JNum 0); ("icon", JNull)]])]])].

(** One reading on 1970-01-02, of 0.35 degrees. *)
Definition payload_one_reading : json :=
  JObj [("list", JArr [
          Sample.reading 90000 (35 # 100) 50 40 1012 3 "Clear" "01d"])].

(** The location the sample IP lookup resolves to. *)
Definition london : Location :=
  {| loc_city := "London"; loc_country := "GB";
     loc_lat := 51.5; loc_lng := (-0.12) |}.

End Example.

(* ===================================================================== *)
(** * Properties                                                          *)
(* ===================================================================== *)

(** ** Rounding and truncation *)

Section NumberLemmas.

Local Open Scope Q_scope.

Lemma round_half_even_bounds (x : Q) :
  x - (1 # 2) <= inject_Z (round_half_even x) <= x + (1 # 2).
Proof.
  unfold round_half_even.
  pose proof (Qfloor_le x) as Hlo.
  pose proof (Qlt_floor x) as Hhi.
  rewrite inject_Z_plus in Hhi. change (inject_Z 1) with 1 in Hhi.
  destruct (Qcompare (x - inject_Z (Qfloor x)) (1 # 2)) eqn:Hc.
  - apply Qeq_alt in Hc.
    destruct (Z.even (Qfloor x)).
    + lra.
    + rewrite inject_Z_plus. change (inject_Z 1) with 1. lra.
  - apply Qlt_alt in Hc. lra.
  - apply Qgt_alt in Hc. rewrite inject_Z_plus. change (inject_Z 1) with 1. lra.
Qed.

Lemma Qfloor_mono (x y : Q) : x <= y -> (Qfloor x <= Qfloor y)%Z.
Proof. apply Qfloor_resp_le. Qed.

Lemma round_half_even_mono (x y : Q) :
  x <= y -> (round_half_even x <= round_half_even y)%Z.
Proof.
  intros Hxy.
  pose proof (Qfloor_mono x y Hxy) as Hf.
  destruct (Z.eq_dec (Qfloor x) (Qfloor y)) as [Heq | Hne].
  - unfold round_half_even. rewrite <- Heq.
    destruct (Qcompare (x - inject_Z (Qfloor x)) (1 # 2)) eqn:Hx;
      destruct (Qcompare (y - inject_Z (Qfloor x)) (1 # 2)) eqn:Hy;
      try (destruct (Z.even (Qfloor x))); try lia;
      rewrite <- ?Qeq_alt, <- ?Qlt_alt, <- ?Qgt_alt in Hx;
      rewrite <- ?Qeq_alt, <- ?Qlt_alt, <- ?Qgt_alt in Hy;
      exfalso; lra.
  - assert (Hlt : (Qfloor x + 1 <= Qfloor y)%Z) by lia.
    assert (Hux : (round_half_even x <= Qfloor x + 1)%Z).
    { unfold round_half_even.
      destruct (Qcompare _ _); try destruct (Z.even _); lia. }
    assert (Hly : (Qfloor y <= round_half_even y)%Z).
    { unfold round_half_even.
      destruct (Qcompare _ _); try destruct (Z.even _); lia. }
    lia.
Qed.

Lemma round_half_even_inject (n : Z) : round_half_even (inject_Z n) = n.
Proof.
  unfold round_half_even. rewrite Qfloor_Z.
  destruct (Qcompare (inject_Z n - inject_Z n) (1 # 2)) eqn:Hc.
  - apply Qeq_alt in Hc. exfalso. lra.
  - reflexivity.
  - apply Qgt_alt in Hc. exfalso. lra.
Qed.

Lemma round_half_even_compat (x y : Q) :
  x == y -> round_half_even x = round_half_even y.
Proof.
  intros H. apply Z.le_antisymm; apply round_half_even_mono; lra.
Qed.

Lemma scale_pos (n : nat) : 0 < inject_Z (10 ^ Z.of_nat n).
Proof.
  change 0 with (inject_Z 0). rewrite <- Zlt_Qlt.
  apply Z.pow_pos_nonneg; lia.
Qed.

Lemma py_round_mono (x y : Q) (n : nat) :
  x <= y -> py_round x n <= py_round y n.
Proof.
  intros Hxy. unfold py_round.
  pose proof (scale_pos n) as Hs.
  set (s := inject_Z (10 ^ Z.of_nat n)) in *.
  assert (Hm : x * s <= y * s) by (apply Qmult_le_compat_r; lra).
  apply round_half_even_mono in Hm. rewrite Zle_Qle in Hm.
  unfold Qdiv. apply Qmult_le_compat_r; [exact Hm |].
  apply Qlt_le_weak, Qinv_lt_0_compat, Hs.
Qed.

Lemma py_round_compat (x y : Q) (n : nat) :
  x == y -> py_round x n = py_round y n.
Proof.
  intros H. unfold py_round.
  rewrite (round_half_even_compat (x * _) (y * inject_Z (10 ^ Z.of_nat n)));
    [reflexivity | rewrite H; reflexivity].
Qed.

(** Rounding leaves a multiple of [10^-n] unchanged; in particular the
    bounds 0 and 100 of a percentage. *)
Lemma py_round_inject (k : Z) (n : nat) : py_round (inject_Z k) n == inject_Z k.
Proof.
  unfold py_round.
  pose proof (scale_pos n) as Hs.
  rewrite <- inject_Z_mult, round_half_even_inject, inject_Z_mult.
  field. lra.
Qed.

End NumberLemmas.

(** ** Mean, minimum and maximum *)

Section MeanFacts.

Local Open Scope Q_scope.

Lemma Qmin_list_le_start (x : Q) (l : list Q) : Qmin_list x l <= x.
Proof.
  revert x. induction l as [| y l IH]; intros x; simpl.
  - lra.
  - destruct (Qlt_le_dec y x) as [Hlt | Hle].
    + specialize (IH y). lra.
    + apply IH.
Qed.

Lemma Qmin_list_le (x : Q) (l : list Q) (y : Q) :
  In y (x :: l) -> Qmin_list x l <= y.
Proof.
  revert x. induction l as [| z l IH]; intros x Hin; simpl.
  - destruct Hin as [<- | []]. lra.
  - destruct Hin as [<- | [<- | Hin]].
    + pose proof (Qmin_list_le_start (if Qlt_le_dec z x then z else x) l) as H.
      destruct (Qlt_le_dec z x); lra.
    + pose proof (Qmin_list_le_start (if Qlt_le_dec z x then z else x) l) as H.
      destruct (Qlt_le_dec z x); lra.
    + apply IH. right. exact Hin.
Qed.

Lemma Qmin_list_In (x : Q) (l : list Q) : In (Qmin_list x l) (x :: l).
Proof.
  revert x. induction l as [| z l IH]; intros x; simpl.
  - left. reflexivity.
  - destruct (IH (if Qlt_le_dec z x then z else x)) as [H | H].
    + destruct (Qlt_le_dec z x); rewrite <- H; auto.
    + auto.
Qed.

Lemma Qmax_list_ge_start (x : Q) (l : list Q) : x <= Qmax_list x l.
Proof.
  revert x. induction l as [| y l IH]; intros x; simpl.
  - lra.
  - destruct (Qlt_le_dec x y) as [Hlt | Hle].
    + specialize (IH y). lra.
    + apply IH.
Qed.

Lemma Qmax_list_ge (x : Q) (l : list Q) (y : Q) :
  In y (x :: l) -> y <= Qmax_list x l.
Proof.
  revert x. induction l as [| z l IH]; intros x Hin; simpl.
  - destruct Hin as [<- | []]. lra.
  - destruct Hin as [<- | [<- | Hin]].
    + pose proof (Qmax_list_ge_start (if Qlt_le_dec x z then z else x) l) as H.
      destruct (Qlt_le_dec x z); lra.
    + pose proof (Qmax_list_ge_start (if Qlt_le_dec x z then z else x) l) as H.
      destruct (Qlt_le_dec x z); lra.
    + apply IH. right. exact Hin.
Qed.

Lemma Qmax_list_In (x : Q) (l : list Q) : In (Qmax_list x l) (x :: l).
Proof.
  revert x. induction l as [| z l IH]; intros x; simpl.
  - left. reflexivity.
  - destruct (IH (if Qlt_le_dec x z then z else x)) as [H | H].
    + destruct (Qlt_le_dec x z); rewrite <- H; auto.
    + auto.
Qed.

Lemma Qsum_lower (a : Q) (l : list Q) :
  (forall y, In y l -> a <= y) ->
  a * inject_Z (Z.of_nat (length l)) <= Qsum l.
Proof.
  induction l as [| x l IH]; intros H.
  - simpl. change (inject_Z (Z.of_nat 0)) with 0. lra.
  - change (length (x :: l)) with (S (length l)).
    rewrite Nat2Z.inj_succ. unfold Z.succ. rewrite inject_Z_plus.
    change (inject_Z 1) with 1. simpl Qsum.
    assert (a <= x) by (apply H; left; reflexivity).
    assert (a * inject_Z (Z.of_nat (length l)) <= Qsum l)
      by (apply IH; intros y Hy; apply H; right; exact Hy).
    lra.
Qed.

Lemma Qsum_upper (b : Q) (l : list Q) :
  (forall y, In y l -> y <= b) ->
  Qsum l <= b * inject_Z (Z.of_nat (length l)).
Proof.
  induction l as [| x l IH]; intros H.
  - simpl. change (inject_Z (Z.of_nat 0)) with 0. lra.
  - change (length (x :: l)) with (S (length l)).
    rewrite Nat2Z.inj_succ. unfold Z.succ. rewrite inject_Z_plus.
    change (inject_Z 1) with 1. simpl Qsum.
    assert (x <= b) by (apply H; left; reflexivity).
    assert (Qsum l <= b * inject_Z (Z.of_nat (length l)))
      by (apply IH; intros y Hy; apply H; right; exact Hy).
    lra.
Qed.

Lemma length_pos_Q {A} (x : A) (l : list A) :
  0 < inject_Z (Z.of_nat (length (x :: l))).
Proof.
  change 0 with (inject_Z 0). rewrite <- Zlt_Qlt. simpl length. lia.
Qed.

(** The mean of a non-empty list lies between any lower and any upper
    bound of its elements. *)
Lemma Qmean_between (a b x : Q) (l : list Q) :
  (forall y, In y (x :: l) -> a <= y <= b) ->
  a <= Qmean (x :: l) <= b.
Proof.
  intros H. unfold Qmean.
  pose proof (length_pos_Q x l) as Hn.
  pose proof (Qsum_lower a (x :: l) (fun y Hy => proj1 (H y Hy))) as Hlo.
  pose proof (Qsum_upper b (x :: l) (fun y Hy => proj2 (H y Hy))) as Hhi.
  set (n := inject_Z (Z.of_nat (length (x :: l)))) in *.
  split.
  - apply Qle_shift_div_l; assumption.
  - apply Qle_shift_div_r; assumption.
Qed.

Lemma Qmean_min_max (x : Q) (l : list Q) :
  Qmin_list x l <= Qmean (x :: l) <= Qmax_list x l.
Proof.
  apply Qmean_between. intros y Hy. split.
  - apply Qmin_list_le, Hy.
  - apply Qmax_list_ge, Hy.
Qed.

(** [int] truncates toward zero. *)
Lemma py_int_nonneg (x : Q) :
  0 <= x -> inject_Z (py_int x) <= x < inject_Z (py_int x) + 1.
Proof.
  intros Hx. unfold py_int.
  destruct (Qle_bool 0 x) eqn:Hb.
  - pose proof (Qfloor_le x). pose proof (Qlt_floor x) as Hlt.
    rewrite inject_Z_plus in Hlt. change (inject_Z 1) with 1 in Hlt. lra.
  - apply Qle_bool_iff in Hx. congruence.
Qed.

Lemma py_int_neg (x : Q) :
  x < 0 -> inject_Z (py_int x) - 1 < x <= inject_Z (py_int x).
Proof.
  intros Hx. unfold py_int.
  destruct (Qle_bool 0 x) eqn:Hb.
  - apply Qle_bool_iff in Hb. lra.
  - pose proof (Qle_ceiling x). pose proof (Qceiling_lt x) as Hlt.
    unfold Z.sub in Hlt. rewrite inject_Z_plus in Hlt.
    change (inject_Z (- (1))) with (- (1)) in Hlt. lra.
Qed.

End MeanFacts.

Lemma np_mean_inv (l : list json) (q : Q) :
  np_mean l = Ok q ->
  exists x xs, as_numbers l = Some (x :: xs) /\ q = Qmean (x :: xs).
Proof.
  unfold np_mean. destruct (as_numbers l) as [[| x xs] |]; try discriminate.
  intros H. injection H as <-. eauto.
Qed.

Lemma round_min_inv (l : list json) (n : nat) (q : Q) :
  round_min l n = Ok q ->
  exists x xs, as_numbers l = Some (x :: xs) /\ q = py_round (Qmin_list x xs) n.
Proof.
  unfold round_min. destruct (as_numbers l) as [[| x xs] |]; try discriminate.
  intros H. injection H as <-. eauto.
Qed.

Lemma round_max_inv (l : list json) (n : nat) (q : Q) :
  round_max l n = Ok q ->
  exists x xs, as_numbers l = Some (x :: xs) /\ q = py_round (Qmax_list x xs) n.
Proof.
  unfold round_max. destruct (as_numbers l) as [[| x xs] |]; try discriminate.
  intros H. injection H as <-. eauto.
Qed.

(** ** The error monad *)

Lemma bind_ok_inv {A B} (r : result A) (k : A -> result B) (b : B) :
  Py.bind r k = Ok b -> exists a, r = Ok a /\ k a = Ok b.
Proof. destruct r as [a | e]; simpl; [eauto | discriminate]. Qed.

Ltac bind_inv H :=
  let a := fresh "v" in
  let E := fresh "E" in
  apply bind_ok_inv in H; destruct H as (a & E & H).

(** ** The grouping loop *)

Section GroupingFacts.

Variable fromtimestamp_date : Q -> result Z.

Local Abbreviation read := (read_item fromtimestamp_date).
Local Abbreviation group := (group_item fromtimestamp_date).

(** The loop reads every item in order and files the readings one by one. *)
Lemma for_each_group_item (items : list json) (m : gmap Z Bucket.t) :
  for_each group items m =
  let* rs := map_result read items in Ok (fold_left add_reading rs m).
Proof.
  revert m. induction items as [| item items IH]; intros m; simpl.
  - reflexivity.
  - unfold group_item at 1.
    destruct (read item) as [r | e]; simpl; [| reflexivity].
    rewrite IH. destruct (map_result read items); reflexivity.
Qed.

End GroupingFacts.

Lemma lookup_fold_add_reading (rs : list Reading) (m : gmap Z Bucket.t) (d : Z) :
  fold_left add_reading rs m !! d =
  match readings_on rs d with
  | [] => m !! d
  | on_d => Some (fold_left append_reading on_d (default (Bucket.empty d) (m !! d)))
  end.
Proof.
  revert m. induction rs as [| r rs IH]; intros m; simpl.
  - reflexivity.
  - rewrite IH. unfold add_reading, readings_on. simpl.
    destruct (Z.eqb_spec (r_date r) d) as [-> | Hne].
    + rewrite lookup_insert_eq. simpl.
      fold (readings_on rs d). destruct (readings_on rs d); reflexivity.
    + rewrite lookup_insert_ne by exact Hne.
      fold (readings_on rs d). reflexivity.
Qed.

Lemma covered_readings_on (rs : list Reading) (d : Z) :
  covered rs d = match readings_on rs d with [] => false | _ => true end.
Proof.
  unfold covered, readings_on. induction rs as [| r rs IH]; simpl.
  - reflexivity.
  - destruct (Z.eqb (r_date r) d); simpl; [reflexivity | exact IH].
Qed.

(** After the loop, [daily_forecasts] holds exactly the buckets of the
    dates that have a reading. *)
Lemma lookup_grouped (rs : list Reading) (d : Z) :
  fold_left add_reading rs (∅ : gmap Z Bucket.t) !! d =
  if covered rs d then Some (daily_bucket rs d) else None.
Proof.
  rewrite lookup_fold_add_reading, covered_readings_on, lookup_empty.
  unfold daily_bucket. destruct (readings_on rs d); reflexivity.
Qed.

Lemma fold_append_reading (rs : list Reading) (b : Bucket.t) :
  fold_left append_reading rs b =
  Bucket.mk (Bucket.date b)
    (Bucket.temps b ++ map r_temp rs)
    (Bucket.humidities b ++ map r_humidity rs)
    (Bucket.cloud_cover b ++ map r_cloud rs)
    (Bucket.pressures b ++ map r_pressure rs)
    (Bucket.wind_speeds b ++ map r_wind rs)
    (Bucket.descriptions b ++ map r_descr rs)
    (Bucket.icons b ++ map r_icon rs).
Proof.
  revert b. induction rs as [| r rs IH]; intros b; simpl.
  - rewrite !app_nil_r. destruct b; reflexivity.
  - rewrite IH. unfold append_reading; simpl.
    rewrite <- !app_assoc. reflexivity.
Qed.

(** The lists of a daily bucket are the values of that date's readings, in
    reading order. *)
Lemma daily_bucket_fields (rs : list Reading) (d : Z) :
  daily_bucket rs d =
  Bucket.mk d
    (map r_temp (readings_on rs d))
    (map r_humidity (readings_on rs d))
    (map r_cloud (readings_on rs d))
    (map r_pressure (readings_on rs d))
    (map r_wind (readings_on rs d))
    (map r_descr (readings_on rs d))
    (map r_icon (readings_on rs d)).
Proof. unfold daily_bucket. rewrite fold_append_reading. reflexivity. Qed.

(** ** Counting, sets of strings and [max] with a key *)

Lemma py_eqb_string (x y : json) :
  is_string x = true -> (py_eqb y x = true <-> y = x).
Proof.
  destruct x as [| | | s | |]; try discriminate. intros _.
  destruct y as [| b | q | t | l | kv]; simpl; try (split; [discriminate | discriminate]).
  rewrite String.eqb_eq. split; [intros ->; reflexivity | intros H; injection H; auto].
Qed.

Lemma first_seen_In (l : list json) (x : json) :
  forallb is_string l = true -> (In x (first_seen l) <-> In x l).
Proof.
  induction l as [| y l IH]; simpl; [tauto |].
  intros H. apply andb_prop in H as [Hy Hl]. specialize (IH Hl).
  rewrite List.filter_In, IH, negb_true_iff.
  destruct (py_eqb x y) eqn:E.
  - apply (py_eqb_string y x Hy) in E. subst. split; auto.
  - split; [intros [? | [? _]]; auto |].
    intros [-> | Hin]; [left; reflexivity | right; auto].
Qed.

Lemma first_seen_NoDup (l : list json) :
  forallb is_string l = true -> List.NoDup (first_seen l).
Proof.
  induction l as [| y l IH]; simpl; [constructor |].
  intros H. apply andb_prop in H as [Hy Hl]. apply List.NoDup_cons.
  - rewrite List.filter_In, negb_true_iff. intros [_ E].
    assert (py_eqb y y = true) by (apply (py_eqb_string y y Hy); reflexivity).
    congruence.
  - apply List.NoDup_filter, IH, Hl.
Qed.

Lemma first_seen_set_order : set_order first_seen.
Proof.
  intros l Hl. split; [apply first_seen_NoDup, Hl |].
  intros x. apply first_seen_In, Hl.
Qed.

Lemma reverse_seen_set_order : set_order Sample.reverse_seen.
Proof.
  intros l Hl. unfold Sample.reverse_seen. split.
  - apply List.NoDup_rev, first_seen_NoDup, Hl.
  - intros x. rewrite <- in_rev. apply first_seen_In, Hl.
Qed.

(** [max] with a key returns the first element of maximal key. *)
Lemma max_by_from_spec (key : json -> nat) (best : json) (xs : list json) :
  let r := max_by_from key best xs in
  (forall x, In x (best :: xs) -> (key x <= key r)%nat) /\
  exists before after,
    best :: xs = (before ++ r :: after)%list /\
    forall x, In x before -> (key x < key r)%nat.
Proof.
  revert best. induction xs as [| y xs IH]; intros best; simpl.
  - split.
    + intros x [<- | []]. lia.
    + exists [], []. split; [reflexivity | intros x []].
  - destruct (Nat.ltb_spec (key best) (key y)) as [Hlt | Hge].
    + destruct (IH y) as (Hmax & before & after & Heq & Hbefore). split.
      * intros x [<- | Hin]; [| apply Hmax, Hin].
        specialize (Hmax y (or_introl eq_refl)). lia.
      * exists (best :: before), after. split.
        -- simpl. f_equal. exact Heq.
        -- intros x [<- | Hin]; [| apply Hbefore, Hin].
           specialize (Hmax y (or_introl eq_refl)). lia.
    + destruct (IH best) as (Hmax & before & after & Heq & Hbefore). split.
      * intros x [<- | [<- | Hin]].
        -- apply Hmax. left. reflexivity.
        -- specialize (Hmax best (or_introl eq_refl)). lia.
        -- apply Hmax. right. exact Hin.
      * destruct before as [| b before].
        -- simpl in Heq. injection Heq as Hb Hxs.
           exists [], (y :: after). split.
           ++ simpl. f_equal; [exact Hb | f_equal; exact Hxs].
           ++ intros x [].
        -- simpl in Heq. injection Heq as Hb Hxs. subst b.
           exists (best :: y :: before), after. split.
           ++ simpl. do 2 f_equal. exact Hxs.
           ++ intros x [<- | [<- | Hin]].
              ** apply Hbefore. left. reflexivity.
              ** assert (key best < key (max_by_from key best xs))%nat
                   by (apply Hbefore; left; reflexivity). lia.
              ** apply Hbefore. right. exact Hin.
Qed.

Lemma max_by_spec (key : json -> nat) (xs : list json) (r : json) :
  max_by key xs = Ok r ->
  (forall x, In x xs -> (key x <= key r)%nat) /\
  exists before after,
    xs = (before ++ r :: after)%list /\
    forall x, In x before -> (key x < key r)%nat.
Proof.
  destruct xs as [| x xs]; simpl; [discriminate |].
  intros H. injection H as <-. apply max_by_from_spec.
Qed.

Lemma as_numbers_map {A} (f : A -> json) (l : list A) :
  forallb (fun a => is_number (f a)) l = true ->
  exists qs, as_numbers (map f l) = Some qs /\ length qs = length l.
Proof.
  induction l as [| a l IH]; simpl.
  - exists []. auto.
  - intros H. apply andb_prop in H as [Ha Hl].
    destruct (IH Hl) as (qs & -> & Hlen).
    unfold is_number in Ha. destruct (as_number (f a)) as [q |]; [| discriminate].
    exists (q :: qs). simpl. auto.
Qed.

(** ** One summary *)

Ltac invert_numeric :=
  repeat match goal with
  | H : np_mean _ = Ok _ |- _ =>
      apply np_mean_inv in H; destruct H as (? & ? & H & ->)
  | H : round_min _ _ = Ok _ |- _ =>
      apply round_min_inv in H; destruct H as (? & ? & H & ->)
  | H : round_max _ _ = Ok _ |- _ =>
      apply round_max_inv in H; destruct H as (? & ? & H & ->)
  end.

Section SummaryFacts.

Variable set_iter : list json -> list json.
Variable m : LogisticRegression.
Variable d : Z.
Variable data : Bucket.t.
Variable s : DailySummary.
Hypothesis Hs : summarize set_iter m d data = Ok s.

Lemma summarize_temps :
  exists t ts,
    as_numbers (Bucket.temps data) = Some (t :: ts) /\
    min_temp s = py_round (Qmin_list t ts) 1 /\
    max_temp s = py_round (Qmax_list t ts) 1 /\
    avg_temp s = py_round (Qmean (t :: ts)) 1.
Proof.
  pose proof Hs as H. unfold summarize in H.
  repeat bind_inv H. injection H as <-. simpl.
  clear E E0 E1 E2. invert_numeric.
  rewrite E3 in E4, E5. injection E4 as -> ->. injection E5 as -> ->.
  eauto 10.
Qed.

Lemma summarize_averages :
  exists h hs c cs p ps w ws,
    as_numbers (Bucket.humidities data) = Some (h :: hs) /\
    as_numbers (Bucket.cloud_cover data) = Some (c :: cs) /\
    as_numbers (Bucket.pressures data) = Some (p :: ps) /\
    as_numbers (Bucket.wind_speeds data) = Some (w :: ws) /\
    humidity s = py_int (Qmean (h :: hs)) /\
    cloud_cover s = py_int (Qmean (c :: cs)) /\
    wind_speed s = py_round (Qmean (w :: ws)) 1 /\
    rain_probability s =
      predict_rain_probability m (Qmean (h :: hs)) (Qmean (c :: cs))
        (Qmean (p :: ps)) (Qmean (w :: ws)).
Proof.
  pose proof Hs as H. unfold summarize in H.
  repeat bind_inv H. injection H as <-. simpl.
  clear E3 E4 E5. invert_numeric.
  do 8 eexists. repeat split; eassumption || reflexivity.
Qed.

Lemma summarize_will_rain :
  will_rain s = negb (Qle_bool (rain_probability s) 50).
Proof.
  pose proof Hs as H. unfold summarize in H.
  repeat bind_inv H. injection H as <-. reflexivity.
Qed.

Lemma summarize_condition :
  forallb hashable (Bucket.descriptions data) = true /\
  max_by (count (Bucket.descriptions data)) (set_iter (Bucket.descriptions data))
    = Ok (condition s).
Proof.
  pose proof Hs as H. unfold summarize in H.
  repeat bind_inv H. injection H as <-. simpl.
  unfold py_set in E6.
  destruct (forallb hashable (Bucket.descriptions data)); [| discriminate].
  injection E6 as <-. auto.
Qed.

Lemma summarize_icon :
  getitem0 (JArr (Bucket.icons data)) = Ok (icon s).
Proof.
  pose proof Hs as H. unfold summarize in H.
  repeat bind_inv H. injection H as <-. simpl. assumption.
Qed.

End SummaryFacts.

(** ** The summary loop *)

Section AggregatorFacts.

Variable RandomState : Type.
Variable seeded : Z -> RandomState.
Variable solver_fit : RandomState -> list (list Q) -> list Z -> LogisticRegression.
Variable ambient : RandomState.
Variable fromtimestamp_date : Q -> result Z.
Variable today : Z.
Variable set_iter : list json -> list json.

Local Abbreviation model :=
  (train_rain_prediction_model RandomState seeded solver_fit ambient).
Local Abbreviation summary := (summarize set_iter).
Local Abbreviation step := (summary_step today set_iter).
Local Abbreviation readings := (readings_of fromtimestamp_date).
Local Abbreviation process :=
  (process_forecast_data RandomState seeded solver_fit ambient
     fromtimestamp_date today set_iter).

Lemma summarize_date (m : LogisticRegression) (d : Z) (data : Bucket.t)
    (s : DailySummary) :
  summary m d data = Ok s -> date s = d.
Proof.
  unfold summarize. intros H.
  repeat bind_inv H. injection H as <-. reflexivity.
Qed.

(** The loop over the target days appends, in order, the summary of every
    target day that has a bucket. *)
Lemma summary_loop (m : LogisticRegression) (daily : gmap Z Bucket.t)
    (offsets : list Z) (acc res : list DailySummary) :
  for_each (step m daily) offsets acc = Ok res ->
  exists ss,
    res = (acc ++ ss)%list /\
    map date ss =
      List.filter (fun d => bool_decide (is_Some (daily !! d)))
        (map (fun i => today + i) offsets) /\
    Forall (fun s => exists data,
              daily !! date s = Some data /\
              summary m (date s) data = Ok s) ss.
Proof.
  revert acc res. induction offsets as [| i offsets IH]; intros acc res H; simpl in H.
  - injection H as <-. exists []. rewrite app_nil_r. auto.
  - bind_inv H. unfold summary_step in E. simpl.
    destruct (daily !! (today + i)) as [data |] eqn:Hd.
    + bind_inv E. injection E as <-.
      destruct (IH _ _ H) as (ss & -> & Hdates & Hall).
      pose proof (summarize_date _ _ _ _ E0) as Hdate.
      exists (v0 :: ss). rewrite <- app_assoc. split; [reflexivity |].
      rewrite bool_decide_eq_true_2 by eauto. simpl. split.
      * rewrite Hdate, Hdates. reflexivity.
      * constructor; [| exact Hall]. exists data. rewrite Hdate. auto.
    + injection E as <-.
      destruct (IH _ _ H) as (ss & -> & Hdates & Hall).
      exists ss. split; [reflexivity |].
      rewrite bool_decide_eq_false_2 by (intros [? ?]; discriminate).
      auto.
Qed.

(** [process_forecast_data] is the summary loop run on the grouped
    readings; the early returns are the case of no reading. *)
Lemma process_forecast_data_unfold (forecast_data : json) :
  process forecast_data =
  let* rs := readings forecast_data in
  for_each (step model (fold_left add_reading rs ∅)) [1; 2; 3; 4] [].
Proof.
  unfold process_forecast_data, readings_of.
  destruct (negb (truthy forecast_data)); [reflexivity |].
  destruct (contains_str forecast_data "list") as [[|] | e]; simpl;
    [| reflexivity | reflexivity].
  destruct (getitem forecast_data "list") as [readings | e]; simpl; [| reflexivity].
  destruct (py_iter readings) as [items | e]; simpl; [| reflexivity].
  rewrite for_each_group_item. destruct (map_result _ items); reflexivity.
Qed.

(** Every emitted summary is the summary of the daily bucket of its date,
    and the dates are the covered target dates in order. *)
Lemma process_forecast_data_summaries (forecast_data : json)
    (res : list DailySummary) :
  process forecast_data = Ok res ->
  exists rs,
    readings forecast_data = Ok rs /\
    map date res = List.filter (covered rs) (target_dates today) /\
    Forall (fun s => covered rs (date s) = true /\
                     summary model (date s) (daily_bucket rs (date s)) = Ok s)
           res.
Proof.
  rewrite process_forecast_data_unfold. intros H. bind_inv H.
  exists v. split; [exact E |].
  apply summary_loop in H. destruct H as (ss & -> & Hdates & Hall).
  cbn [app]. split.
  - rewrite Hdates. unfold target_dates. apply List.filter_ext.
    intros d. rewrite lookup_grouped.
    destruct (covered v d).
    + apply bool_decide_eq_true_2. eauto.
    + apply bool_decide_eq_false_2. intros [? ?]; discriminate.
  - eapply List.Forall_impl; [| exact Hall]. simpl.
    intros s (data & Hlook & Hsum). rewrite lookup_grouped in Hlook.
    destruct (covered v (date s)); [| discriminate].
    injection Hlook as <-. auto.
Qed.

End AggregatorFacts.

(** ** The aggregator returns on well-typed readings *)

Lemma py_int_truncation (x : Q) : truncation_of x (py_int x).
Proof. split; [apply py_int_nonneg | apply py_int_neg]. Qed.

Lemma as_numbers_total (l : list json) :
  l <> [] -> forallb is_number l = true ->
  exists q qs, as_numbers l = Some (q :: qs).
Proof.
  intros Hne Hl.
  destruct (as_numbers_map (fun v => v) l Hl) as (qs & Hqs & Hlen).
  rewrite map_id in Hqs. destruct qs as [| q qs].
  - destruct l; [congruence | discriminate].
  - eauto.
Qed.

Lemma forallb_map {A B} (f : A -> B) (p : B -> bool) (l : list A) :
  forallb p (map f l) = forallb (fun a => p (f a)) l.
Proof. induction l as [| a l IH]; simpl; [| rewrite IH]; reflexivity. Qed.

Lemma forallb_filter {A} (p q : A -> bool) (l : list A) :
  forallb p l = true -> forallb p (List.filter q l) = true.
Proof.
  induction l as [| a l IH]; simpl; [reflexivity |].
  intros H. apply andb_prop in H as [Ha Hl].
  destruct (q a); simpl; [rewrite Ha |]; auto.
Qed.

Lemma forallb_weaken {A} (p q : A -> bool) (l : list A) :
  (forall a, p a = true -> q a = true) ->
  forallb p l = true -> forallb q l = true.
Proof.
  intros Hpq. induction l as [| a l IH]; simpl; [reflexivity |].
  intros H. apply andb_prop in H as [Ha Hl].
  rewrite (Hpq a Ha). auto.
Qed.

Section Totality.

Variable today : Z.
Variable set_iter : list json -> list json.
Hypothesis Hset : set_order set_iter.

Lemma summarize_total (m : LogisticRegression) (rs : list Reading) (d : Z) :
  forallb well_typed_reading rs = true ->
  covered rs d = true ->
  exists s, summarize set_iter m d (daily_bucket rs d) = Ok s.
Proof.
  intros Hwt Hcov.
  rewrite covered_readings_on in Hcov.
  apply (forallb_filter _ (fun r => Z.eqb (r_date r) d)) in Hwt.
  fold (readings_on rs d) in Hwt.
  rewrite daily_bucket_fields.
  set (on_d := readings_on rs d) in *.
  assert (Hne : on_d <> []) by (destruct on_d; [discriminate | congruence]).
  assert (Hnum : forall f : Reading -> json,
             (forall r, well_typed_reading r = true -> is_number (f r) = true) ->
             exists q qs, as_numbers (map f on_d) = Some (q :: qs)).
  { intros f Hf. apply as_numbers_total.
    - destruct on_d; [congruence | discriminate].
    - rewrite forallb_map. eapply forallb_weaken; [| exact Hwt]. exact Hf. }
  unfold well_typed_reading in Hnum.
  destruct (Hnum r_temp) as (t & ts & Ht);
    [intros r Hr; repeat (apply andb_prop in Hr as [Hr ?]); assumption |].
  destruct (Hnum r_humidity) as (h & hs & Hh);
    [intros r Hr; repeat (apply andb_prop in Hr as [Hr ?]); assumption |].
  destruct (Hnum r_cloud) as (c & cs & Hc);
    [intros r Hr; repeat (apply andb_prop in Hr as [Hr ?]); assumption |].
  destruct (Hnum r_pressure) as (p & ps & Hp);
    [intros r Hr; repeat (apply andb_prop in Hr as [Hr ?]); assumption |].
  destruct (Hnum r_wind) as (w & ws & Hw);
    [intros r Hr; repeat (apply andb_prop in Hr as [Hr ?]); assumption |].
  assert (Hstr : forallb is_string (map r_descr on_d) = true).
  { rewrite forallb_map. eapply forallb_weaken; [| exact Hwt].
    unfold well_typed_reading.
    intros r Hr; repeat (apply andb_prop in Hr as [Hr ?]); assumption. }
  assert (Hhash : forallb hashable (map r_descr on_d) = true).
  { eapply forallb_weaken; [| exact Hstr]. intros [] ?; try discriminate; reflexivity. }
  destruct (Hset _ Hstr) as [_ Hin].
  unfold summarize, np_mean, round_min, round_max, py_set. simpl.
  rewrite Hh, Hc, Hp, Hw, Ht, Hhash. simpl.
  destruct (set_iter (map r_descr on_d)) as [| x xs] eqn:Hiter.
  - destruct on_d as [| r on_d']; [congruence |].
    exfalso. apply (Hin (r_descr r)). left. reflexivity.
  - simpl. destruct on_d as [| r on_d']; [congruence |]. simpl. eauto.
Qed.

Lemma summary_loop_total (m : LogisticRegression) (daily : gmap Z Bucket.t)
    (offsets : list Z) (acc : list DailySummary) :
  (forall i data, In i offsets -> daily !! (today + i) = Some data ->
                  exists s, summarize set_iter m (today + i) data = Ok s) ->
  exists res, for_each (summary_step today set_iter m daily) offsets acc = Ok res.
Proof.
  revert acc. induction offsets as [| i offsets IH]; intros acc H; simpl.
  - eauto.
  - unfold summary_step at 1.
    destruct (daily !! (today + i)) as [data |] eqn:Hd.
    + destruct (H i data (or_introl eq_refl) Hd) as (s & ->). simpl.
      apply IH. intros j dj Hj. apply H. right. exact Hj.
    + simpl. apply IH. intros j dj Hj. apply H. right. exact Hj.
Qed.

End Totality.

(** ** The emitted summaries *)

Lemma filter_target_length (f : Z -> bool) (today : Z) :
  (length (List.filter f (target_dates today)) <= 4)%nat /\
  (length (List.filter f (target_dates today)) = 4%nat <->
   forall d, In d (target_dates today) -> f d = true).
Proof.
  unfold target_dates. simpl.
  destruct (f (today + 1)) eqn:E1, (f (today + 2)) eqn:E2,
           (f (today + 3)) eqn:E3, (f (today + 4)) eqn:E4; simpl;
    (split; [lia |]); split;
    try (intros H; exfalso; lia);
    try (intros _ d [<- | [<- | [<- | [<- | []]]]]; assumption);
    intros H;
    first [ rewrite (H (today + 1)) in E1 by tauto; discriminate
          | rewrite (H (today + 2)) in E2 by tauto; discriminate
          | rewrite (H (today + 3)) in E3 by tauto; discriminate
          | rewrite (H (today + 4)) in E4 by tauto; discriminate
          | reflexivity ].
Qed.

Lemma target_dates_sorted (today : Z) :
  Sorted.StronglySorted Z.lt (target_dates today).
Proof.
  unfold target_dates. simpl.
  repeat (constructor; [| repeat constructor; lia]). constructor.
Qed.

Lemma filter_sorted (f : Z -> bool) (l : list Z) :
  Sorted.StronglySorted Z.lt l -> Sorted.StronglySorted Z.lt (List.filter f l).
Proof.
  induction 1 as [| x l Hl IH Hx]; simpl; [constructor |].
  destruct (f x); [| exact IH].
  constructor; [exact IH |].
  apply List.Forall_forall. intros y Hy. apply List.filter_In in Hy as [Hy _].
  rewrite List.Forall_forall in Hx. apply Hx, Hy.
Qed.

Section AggregatorClaims.

Variable RandomState : Type.
Variable seeded : Z -> RandomState.
Variable solver_fit : RandomState -> list (list Q) -> list Z -> LogisticRegression.
Variable ambient : RandomState.
Variable fromtimestamp_date : Q -> result Z.
Variable today : Z.
Variable set_iter : list json -> list json.

Local Abbreviation model :=
  (train_rain_prediction_model RandomState seeded solver_fit ambient).
Local Abbreviation readings := (readings_of fromtimestamp_date).
Local Abbreviation process :=
  (process_forecast_data RandomState seeded solver_fit ambient
     fromtimestamp_date today set_iter).

(** An emitted summary is the summary of the bucket of its date. *)
Lemma emitted_summary (forecast_data : json) (rs : list Reading)
    (res : list DailySummary) (s : DailySummary) :
  readings forecast_data = Ok rs ->
  process forecast_data = Ok res ->
  In s res ->
  covered rs (date s) = true /\
  summarize set_iter model (date s) (daily_bucket rs (date s)) = Ok s.
Proof.
  intros Hrs Hres Hin.
  apply process_forecast_data_summaries in Hres.
  destruct Hres as (rs' & Hrs' & _ & Hall).
  rewrite Hrs in Hrs'. injection Hrs' as <-.
  rewrite List.Forall_forall in Hall. apply Hall, Hin.
Qed.

(** C5. On a payload whose readings are well typed the aggregator returns,
    and what it returns has exactly one summary for each of the dates
    today+1 .. today+4 that has at least one reading, in ascending date
    order and without padding: at most four entries, and four exactly when
    all four days are covered. *)
Theorem process_forecast_data_covered_days (forecast_data : json)
    (rs : list Reading) :
  set_order set_iter ->
  readings forecast_data = Ok rs ->
  forallb well_typed_reading rs = true ->
  exists res,
    process forecast_data = Ok res /\
    map date res = List.filter (covered rs) (target_dates today) /\
    Sorted.StronglySorted Z.lt (map date res) /\
    (length res <= 4)%nat /\
    (length res = 4%nat <->
     forall d, In d (target_dates today) -> covered rs d = true).
Proof.
  intros Hset Hrs Hwt.
  assert (Hret : exists res, process forecast_data = Ok res).
  { rewrite process_forecast_data_unfold, Hrs. cbn [Py.bind].
    apply summary_loop_total. intros i data _ Hlook.
    rewrite lookup_grouped in Hlook.
    destruct (covered rs (today + i)) eqn:Hcov; [| discriminate].
    injection Hlook as <-. apply summarize_total; assumption. }
  destruct Hret as (res & Hres). exists res. split; [exact Hres |].
  destruct (process_forecast_data_summaries _ _ _ _ _ _ _ _ _ Hres)
    as (rs' & Hrs' & Hdates & _).
  rewrite Hrs in Hrs'. injection Hrs' as <-.
  split; [exact Hdates |].
  rewrite <- (length_map date), Hdates.
  split; [apply filter_sorted, target_dates_sorted |].
  apply filter_target_length.
Qed.

(** The order of the temperature entries in exact arithmetic. When the
    minimum, the maximum and the arithmetic mean of the temperatures of a
    day's bucket are computed exactly and rounded to one decimal by one and
    the same rule (ties to even), every emitted summary has
    [min_temp <= avg_temp <= max_temp]. The program rounds the first two as
    Python floats and the third as a [numpy.float64], and does not keep this
    order: see [binary64_average_above_maximum]. *)
Theorem summary_temperature_order (forecast_data : json) (rs : list Reading)
    (res : list DailySummary) (s : DailySummary) :
  readings forecast_data = Ok rs ->
  process forecast_data = Ok res ->
  In s res ->
  exists t ts,
    as_numbers (Bucket.temps (daily_bucket rs (date s))) = Some (t :: ts) /\
    min_temp s = py_round (Qmin_list t ts) 1 /\
    max_temp s = py_round (Qmax_list t ts) 1 /\
    avg_temp s = py_round (Qmean (t :: ts)) 1 /\
    (min_temp s <= avg_temp s <= max_temp s)%Q.
Proof.
  intros Hrs Hres Hin.
  destruct (emitted_summary _ _ _ _ Hrs Hres Hin) as [_ Hsum].
  destruct (summarize_temps _ _ _ _ _ Hsum) as (t & ts & Ht & Hmin & Hmax & Havg).
  exists t, ts. repeat split; try assumption.
  - rewrite Hmin, Havg. apply py_round_mono, Qmean_min_max.
  - rewrite Hmax, Havg. apply py_round_mono, Qmean_min_max.
Qed.


(** C1, as the code has it. In every emitted summary whose bucket holds
    description strings, [condition] is one of those descriptions, no
    description of the bucket occurs more often, and among the descriptions
    tied for the highest count it is the one the set of descriptions
    iterates first; every description the set iterates before it occurs
    strictly less often. *)
Theorem summary_condition_most_frequent (forecast_data : json)
    (rs : list Reading) (res : list DailySummary) (s : DailySummary) :
  set_order set_iter ->
  readings forecast_data = Ok rs ->
  process forecast_data = Ok res ->
  In s res ->
  forallb is_string (Bucket.descriptions (daily_bucket rs (date s))) = true ->
  In (condition s) (Bucket.descriptions (daily_bucket rs (date s))) /\
  (forall x, In x (Bucket.descriptions (daily_bucket rs (date s))) ->
     (count (Bucket.descriptions (daily_bucket rs (date s))) x <=
      count (Bucket.descriptions (daily_bucket rs (date s))) (condition s))%nat) /\
  exists before after,
    set_iter (Bucket.descriptions (daily_bucket rs (date s))) =
      (before ++ condition s :: after)%list /\
    forall x, In x before ->
      (count (Bucket.descriptions (daily_bucket rs (date s))) x <
       count (Bucket.descriptions (daily_bucket rs (date s))) (condition s))%nat.
Proof.
  intros Hset Hrs Hres Hin Hstr.
  destruct (emitted_summary _ _ _ _ Hrs Hres Hin) as [_ Hsum].
  destruct (summarize_condition _ _ _ _ _ Hsum) as [_ Hmax].
  set (descs := Bucket.descriptions (daily_bucket rs (date s))) in *.
  destruct (Hset descs Hstr) as [_ Hiter].
  destruct (max_by_spec _ _ _ Hmax) as (Hle & before & after & Heq & Hlt).
  assert (Hc : In (condition s) (set_iter descs))
    by (rewrite Heq; apply in_or_app; right; left; reflexivity).
  split; [apply Hiter, Hc |]. split.
  - intros x Hx. apply Hle, Hiter, Hx.
  - exists before, after. auto.
Qed.

(** C6. When the fitted model returns probabilities, the classifier's
    [rain_probability] lies in [0, 100] for all inputs, and in every
    emitted summary [will_rain] holds exactly when [rain_probability]
    exceeds 50; at 50 it is false. *)
Theorem rain_probability_range_and_flag :
  (forall g X y, proba_in_unit_interval (solver_fit g X y)) ->
  (forall h c p w, (0 <= predict_rain_probability model h c p w <= 100)%Q) /\
  (forall forecast_data res s,
     process forecast_data = Ok res -> In s res ->
     (0 <= rain_probability s <= 100)%Q /\
     (will_rain s = true <-> (50 < rain_probability s)%Q) /\
     ((rain_probability s == 50)%Q -> will_rain s = false)).
Proof.
  intros Hfit.
  assert (Hrange : forall h c p w,
             (0 <= predict_rain_probability model h c p w <= 100)%Q).
  { intros h c p w. unfold predict_rain_probability.
    pose proof (Hfit (check_random_state RandomState seeded (Some 42) ambient)
                  X_train y_train h c p w) as Hp.
    fold (LogisticRegression_fit RandomState seeded solver_fit (Some 42) ambient
            X_train y_train) in Hp.
    fold model in Hp.
    set (pr := snd (predict_proba model h c p w)) in *.
    assert (H0 : (inject_Z 0 <= pr * 100)%Q)
      by (change (inject_Z 0) with 0%Q; lra).
    assert (H1 : (pr * 100 <= inject_Z 100)%Q)
      by (change (inject_Z 100) with 100%Q; lra).
    apply (py_round_mono _ _ 1) in H0, H1.
    pose proof (py_round_inject 0 1) as E0.
    pose proof (py_round_inject 100 1) as E1.
    set (lo := py_round (inject_Z 0) 1) in *.
    set (hi := py_round (inject_Z 100) 1) in *.
    change (inject_Z 0) with 0%Q in E0.
    change (inject_Z 100) with 100%Q in E1.
    lra. }
  split; [exact Hrange |].
  intros forecast_data res s Hres Hin.
  destruct (process_forecast_data_summaries _ _ _ _ _ _ _ _ _ Hres)
    as (rs & _ & _ & Hall).
  rewrite List.Forall_forall in Hall. destruct (Hall s Hin) as [_ Hsum].
  destruct (summarize_averages _ _ _ _ _ Hsum)
    as (h & hs & c & cs & p & ps & w & ws & _ & _ & _ & _ & _ & _ & _ & Hrp).
  pose proof (summarize_will_rain _ _ _ _ _ Hsum) as Hwr.
  split; [rewrite Hrp; apply Hrange |].
  rewrite Hwr. split.
  - rewrite negb_true_iff.
    destruct (Qle_bool (rain_probability s) 50) eqn:Hb.
    + apply Qle_bool_iff in Hb. split; [discriminate | intros; exfalso; lra].
    + split; [intros _ | reflexivity].
      apply Qnot_le_lt. intros Hle. apply Qle_bool_iff in Hle. congruence.
  - intros Heq. apply negb_false_iff, Qle_bool_iff. lra.
Qed.

End AggregatorClaims.

(** ** The sample run *)

Lemma sample_readings :
  readings_of Sample.utc_date Sample.payload = Ok Sample.readings.
Proof. vm_compute. reflexivity. Qed.

Lemma sample_tie_readings :
  readings_of Sample.utc_date Sample.tie_payload = Ok Sample.tie_readings.
Proof. vm_compute. reflexivity. Qed.

Lemma sample_summaries :
  Sample.process Sample.reverse_seen Sample.payload = Ok Sample.summaries.
Proof. vm_compute. reflexivity. Qed.

Lemma clamp_unit (x : Q) : (0 <= Sample.clamp x <= 1)%Q.
Proof.
  unfold Sample.clamp.
  destruct (Qle_bool x 0) eqn:E0; [lra |].
  destruct (Qle_bool 1 x) eqn:E1; [lra |].
  assert (Hlo : ~ (x <= 0)%Q) by (intros H; apply Qle_bool_iff in H; congruence).
  assert (Hhi : ~ (1 <= x)%Q) by (intros H; apply Qle_bool_iff in H; congruence).
  lra.
Qed.

Lemma sample_fit_proba (g : unit) (X : list (list Q)) (y : list Z) :
  proba_in_unit_interval (Sample.fit g X y).
Proof. intros h c p w. simpl. apply clamp_unit. Qed.

(** Witness of C5: the sample payload covers three of the four days. *)
Lemma process_forecast_data_covered_days_sample :
  exists res,
    Sample.process Sample.reverse_seen Sample.payload = Ok res /\
    map date res =
      List.filter (covered Sample.readings) (target_dates Sample.today) /\
    StronglySorted Z.lt (map date res) /\
    (length res <= 4)%nat /\
    (length res = 4%nat <->
     forall d, In d (target_dates Sample.today) ->
               covered Sample.readings d = true).
Proof.
  exact (process_forecast_data_covered_days unit (fun _ => tt) Sample.fit tt
           Sample.utc_date Sample.today Sample.reverse_seen Sample.payload
           Sample.readings reverse_seen_set_order sample_readings eq_refl).
Defined.

(** The order of the temperature entries on every summary of the sample
    run, in exact arithmetic. *)
Lemma summary_temperature_order_sample :
  Forall (fun s => (min_temp s <= avg_temp s <= max_temp s)%Q) Sample.summaries.
Proof.
  apply List.Forall_forall. intros s Hs.
  destruct (summary_temperature_order unit (fun _ => tt) Sample.fit tt
              Sample.utc_date Sample.today Sample.reverse_seen Sample.payload
              Sample.readings Sample.summaries s
              sample_readings sample_summaries Hs)
    as (t & ts & _ & _ & _ & _ & H).
  exact H.
Defined.

(** C7, on the program's numbers. A payload with one reading of 0.35
    degrees on the day after today: the grouping loop puts that one
    temperature in the day's bucket, [round(min(temps), 1)] and
    [round(max(temps), 1)] are the float 0.3 (the float 0.35 is below the
    decimal 0.35) and [round(np.mean(temps), 1)] is the float 0.4 (numpy
    rounds 3.5 to 4): the summary's [avg_temp] is above its [max_temp], so
    [min_temp <= avg_temp <= max_temp] fails. *)
Theorem binary64_average_above_maximum :
  exists rs mn mx avg,
    readings_of Sample.utc_date Example.payload_one_reading = Ok rs /\
    covered rs (Sample.today + 1) = true /\
    Binary64.summary_temperatures Binary64.sum_left
      (daily_bucket rs (Sample.today + 1)) = Some (mn, mx, avg) /\
    (mn == Binary64.of_decimal (3 # 10))%Q /\
    (mx == Binary64.of_decimal (3 # 10))%Q /\
    (avg == Binary64.of_decimal (4 # 10))%Q /\
    (mx < avg)%Q.
Proof.
  do 4 eexists. split; [vm_compute; reflexivity |].
  split; [vm_compute; reflexivity |].
  split; [vm_compute; reflexivity |].
  repeat split; vm_compute; reflexivity.
Qed.



(** Witness of the amended C1 on every summary of the sample run. *)
Lemma summary_condition_most_frequent_sample :
  Forall (fun s =>
            In (condition s)
               (Bucket.descriptions (daily_bucket Sample.readings (date s))))
         Sample.summaries.
Proof.
  apply List.Forall_forall. intros s Hs.
  refine (proj1 (summary_condition_most_frequent unit (fun _ => tt) Sample.fit
                   tt Sample.utc_date Sample.today Sample.reverse_seen
                   Sample.payload Sample.readings Sample.summaries s
                   reverse_seen_set_order sample_readings sample_summaries
                   Hs _)).
  destruct Hs as [<- | [<- | [<- | []]]]; vm_compute; reflexivity.
Defined.

(** Counterexample to C1 as stated: two readings of one day, "Rain" then
    "Clear", tie; a set that iterates "Clear" first is a legitimate set of
    strings, and with it the label is "Clear", not the first-seen "Rain". *)
Lemma condition_tie_follows_set_order :
  set_order Sample.reverse_seen /\
  exists s,
    Sample.process Sample.reverse_seen Sample.tie_payload = Ok [s] /\
    Bucket.descriptions (daily_bucket Sample.tie_readings (date s)) =
      [JStr "Rain"; JStr "Clear"] /\
    mode_first_seen [JStr "Rain"; JStr "Clear"] = Ok (JStr "Rain") /\
    condition s = JStr "Clear".
Proof.
  split; [exact reverse_seen_set_order |].
  eexists. split; [vm_compute; reflexivity |].
  split; [vm_compute; reflexivity |].
  split; vm_compute; reflexivity.
Qed.

(** Witness of C6 for the sample model. *)
Lemma rain_probability_range_and_flag_sample :
  (forall h c p w,
     (0 <= predict_rain_probability
             (train_rain_prediction_model unit (fun _ => tt) Sample.fit tt)
             h c p w <= 100)%Q) /\
  (forall forecast_data res s,
     Sample.process Sample.reverse_seen forecast_data = Ok res -> In s res ->
     (0 <= rain_probability s <= 100)%Q /\
     (will_rain s = true <-> (50 < rain_probability s)%Q) /\
     ((rain_probability s == 50)%Q -> will_rain s = false)).
Proof.
  exact (rain_probability_range_and_flag unit (fun _ => tt) Sample.fit tt
           Sample.utc_date Sample.today Sample.reverse_seen sample_fit_proba).
Defined.

(** ** The forecast endpoint *)

Section EndpointFacts.

Variable RandomState : Type.
Variable seeded : Z -> RandomState.
Variable solver_fit : RandomState -> list (list Q) -> list Z -> LogisticRegression.
Variable ambient : RandomState.
Variable fromtimestamp_date : Q -> result Z.
Variable today : Z.
Variable set_iter : list json -> list json.
Variable API_KEY : option string.
Variable geocoder_ip : result (option GeoResult).
Variable geocoder_reverse_geocode : Q -> Q -> result (option GeoResult).
Variable forecast_request : Q -> Q -> result json.

Local Abbreviation endpoint :=
  (get_forecast RandomState seeded solver_fit ambient fromtimestamp_date
     today set_iter API_KEY geocoder_ip geocoder_reverse_geocode
     forecast_request).

(** Without both coordinates, a failed IP lookup is answered 400. *)
Lemma get_forecast_ip_unresolved (lat lng : option Q) :
  lat = None \/ lng = None ->
  get_location_from_ip geocoder_ip = None ->
  endpoint lat lng = (400, ErrorBody "Could not detect location").
Proof.
  intros Hmissing Hip. unfold get_forecast, get_forecast_try. rewrite Hip.
  destruct Hmissing as [-> | ->]; [| destruct lat]; reflexivity.
Qed.

(** With both coordinates, a failed reverse geocoding is never answered
    400: the location is not checked, and the answer is 500, either for the
    missing key or for the [TypeError] of indexing [None]. *)
Lemma get_forecast_coordinates_unresolved (lat lng : Q) :
  get_location_from_coordinates geocoder_reverse_geocode lat lng = None ->
  endpoint (Some lat) (Some lng) =
    if api_key_missing API_KEY
    then (500, ErrorBody "API key not configured")
    else (500, ExceptionBody TypeError).
Proof.
  intros Hrev. unfold get_forecast, get_forecast_try. rewrite Hrev.
  destruct (api_key_missing API_KEY); reflexivity.
Qed.

End EndpointFacts.

(** C3, the failing request. [GET /api/forecast?lat=51.5&lng=-0.12] with
    the key configured and a reverse geocoding that fails is answered 500
    with the text of a [TypeError], where the request without coordinates
    and a failed IP lookup is answered 400. *)
Theorem get_forecast_reverse_geocoding_failure_is_500 :
  Sample.get_forecast Sample.api_key Sample.ip_found
    (Some 51.5%Q) (Some (-0.12)%Q) = (500, ExceptionBody TypeError) /\
  Sample.get_forecast Sample.api_key Sample.ip_not_found None None =
    (400, ErrorBody "Could not detect location").
Proof. split; vm_compute; reflexivity. Qed.

(** ** The feels-like estimator *)

Section LeastSquares.

Local Open Scope Q_scope.

Lemma Qsum_map_ext {A} (f g : A -> Q) (l : list A) :
  (forall x, In x l -> f x == g x) -> Qsum (map f l) == Qsum (map g l).
Proof.
  induction l as [| x l IH]; intros H; simpl.
  - reflexivity.
  - rewrite (H x (or_introl eq_refl)), IH; [reflexivity |].
    intros y Hy. apply H. right. exact Hy.
Qed.

Lemma Qsum_map_linear {A} (a b : Q) (f g : A -> Q) (l : list A) :
  Qsum (map (fun x => a * f x + b * g x) l) ==
  a * Qsum (map f l) + b * Qsum (map g l).
Proof.
  induction l as [| x l IH]; simpl.
  - ring.
  - rewrite IH. ring.
Qed.


Lemma Qsum_squares_nonneg {A} (f : A -> Q) (l : list A) :
  0 <= Qsum (map (fun x => f x * f x) l).
Proof.
  induction l as [| x l IH]; simpl.
  - lra.
  - assert (0 <= f x * f x) by nra. lra.
Qed.

Lemma Qsum_map_zero {A} (f : A -> Q) (l : list A) :
  (forall x, In x l -> f x == 0) -> Qsum (map f l) == 0.
Proof.
  induction l as [| x l IH]; intros H; simpl.
  - reflexivity.
  - rewrite (H x (or_introl eq_refl)), IH; [ring |].
    intros y Hy. apply H. right. exact Hy.
Qed.

Lemma combine_map_same {A B C} (f : A -> B) (g : A -> C) (l : list A) :
  combine (map f l) (map g l) = map (fun x => (f x, g x)) l.
Proof. induction l as [| x l IH]; simpl; [| rewrite IH]; reflexivity. Qed.

Lemma combine_map_r {A B} (g : A -> B) (l : list A) :
  combine l (map g l) = map (fun x => (x, g x)) l.
Proof. induction l as [| x l IH]; simpl; [| rewrite IH]; reflexivity. Qed.

Lemma Qdot_maps {A} (f g : A -> Q) (l : list A) :
  Qdot (map f l) (map g l) = Qsum (map (fun x => f x * g x) l).
Proof. unfold Qdot. rewrite combine_map_same, map_map. reflexivity. Qed.

Variables a b : Q.
Variable X : list (Q * Q).

(** Targets that are an exact linear function of the two features. *)
Variable target : Q * Q -> Q.
Hypothesis target_linear : forall p, target p == a * fst p + b * snd p.
Hypothesis unique_solution : ~ gram_det X == 0.

Let y := map target X.

Lemma Qmean_target :
  Qmean y == a * Qmean (map fst X) + b * Qmean (map snd X).
Proof.
  unfold Qmean, y. rewrite !length_map.
  rewrite (Qsum_map_ext target (fun p => a * fst p + b * snd p))
    by (intros; apply target_linear).
  rewrite Qsum_map_linear. unfold Qdiv. ring.
Qed.

(** The fit recovers the coefficients of the linear function, with a zero
    intercept. *)
Lemma LinearRegression_fit_exact :
  coef_humidity (LinearRegression_fit X y) == a /\
  coef_temp (LinearRegression_fit X y) == b /\
  intercept (LinearRegression_fit X y) == 0.
Proof.
  pose proof unique_solution as Hdet. unfold gram_det in Hdet.
  unfold LinearRegression_fit. cbn [coef_humidity coef_temp intercept].
  pose proof Qmean_target as Hym. unfold y in *.
  set (hm := Qmean (map fst X)) in *.
  set (tm := Qmean (map snd X)) in *.
  set (ym := Qmean (map target X)) in *.
  rewrite !map_map in *. rewrite !Qdot_maps in *.
  set (shh := Qsum (map (fun x => (fst x - hm) * (fst x - hm)) X)) in *.
  set (sht := Qsum (map (fun x => (fst x - hm) * (snd x - tm)) X)) in *.
  set (stt := Qsum (map (fun x => (snd x - tm) * (snd x - tm)) X)) in *.
  assert (Hshy : Qsum (map (fun x => (fst x - hm) * (target x - ym)) X)
                 == a * shh + b * sht).
  { unfold shh, sht. rewrite <- Qsum_map_linear. apply Qsum_map_ext.
    intros p _. rewrite target_linear, Hym. ring. }
  assert (Hsty : Qsum (map (fun x => (snd x - tm) * (target x - ym)) X)
                 == a * sht + b * stt).
  { unfold stt. 
    rewrite (Qsum_map_ext _ (fun x => a * ((fst x - hm) * (snd x - tm))
                                      + b * ((snd x - tm) * (snd x - tm)))).
    - rewrite Qsum_map_linear. reflexivity.
    - intros p _. rewrite target_linear, Hym. ring. }
  rewrite Hshy, Hsty.
  assert (Hwh : (a * shh + b * sht) * stt - (a * sht + b * stt) * sht
                == a * (shh * stt - sht * sht)) by ring.
  assert (Hwt : (a * sht + b * stt) * shh - (a * shh + b * sht) * sht
                == b * (shh * stt - sht * sht)) by ring.
  rewrite Hwh, Hwt.
  set (det := shh * stt - sht * sht) in *.
  assert (Ea : a * det / det == a) by (field; exact Hdet).
  assert (Eb : b * det / det == b) by (field; exact Hdet).
  rewrite Ea, Eb. repeat split; try reflexivity.
  rewrite Hym. ring.
Qed.

Lemma predict_fit_exact (h t : Q) :
  predict (LinearRegression_fit X y) h t == a * h + b * t.
Proof.
  destruct LinearRegression_fit_exact as (Ha & Hb & Hi).
  unfold predict. rewrite Ha, Hb, Hi. ring.
Qed.

(** The fitted model leaves no residual, so no other model has a smaller
    squared error: it is a least-squares fit. *)
Lemma LinearRegression_fit_least_squares (other : LinearRegression) :
  squared_error (LinearRegression_fit X y) X y <= squared_error other X y.
Proof.
  assert (Hzero : squared_error (LinearRegression_fit X y) X y == 0).
  { unfold squared_error, y.
    rewrite combine_map_r, map_map. apply Qsum_map_zero.
    intros p _. cbn [fst snd]. fold y.
    rewrite predict_fit_exact, target_linear. ring. }
  rewrite Hzero. unfold squared_error.
  apply (Qsum_squares_nonneg
           (fun p => snd p - predict other (fst (fst p)) (snd (fst p)))).
Qed.

End LeastSquares.

Lemma training_gram_det :
  ~ (gram_det (combine training_humidity training_temp) == 0)%Q.
Proof. unfold Qeq. vm_compute. discriminate. Qed.

Lemma training_feels_like_targets :
  training_feels_like =
  map (fun p => (snd p * 0.9 + (fst p / 100) * 3)%Q)
      (combine training_humidity training_temp).
Proof. reflexivity. Qed.

(** C9. The estimator is fitted on 14 fixed samples whose targets are
    [0.9*temperature + 0.03*humidity]; the fit is a least-squares fit; and
    its prediction, rounded to 2 decimals, is
    [round(0.9*temperature + 0.03*humidity, 2)] for every input, in exact
    arithmetic. *)
Theorem predict_feels_like_closed_form :
  length (combine training_humidity training_temp) = 14%nat /\
  length training_feels_like = 14%nat /\
  Forall2 (fun target p => (target == 0.9 * snd p + 0.03 * fst p)%Q)
          training_feels_like (combine training_humidity training_temp) /\
  (forall other : LinearRegression,
     (squared_error train_prediction_model
        (combine training_humidity training_temp) training_feels_like
      <= squared_error other
           (combine training_humidity training_temp) training_feels_like)%Q) /\
  (forall humidity temperature : Q,
     predict_feels_like train_prediction_model humidity temperature =
     py_round (0.9 * temperature + 0.03 * humidity) 2).
Proof.
  assert (Hlin : forall p : Q * Q,
             (snd p * 0.9 + (fst p / 100) * 3 == (3 # 100) * fst p + (9 # 10) * snd p)%Q).
  { intros p. field. }
  split; [reflexivity |]. split; [reflexivity |]. split.
  { unfold training_feels_like, training_humidity, training_temp.
    cbn [combine map].
    repeat (apply List.Forall2_cons; [unfold Qeq; vm_compute; reflexivity |]).
    apply List.Forall2_nil. }
  split.
  - intros other. unfold train_prediction_model. cbv zeta.
    rewrite training_feels_like_targets.
    apply (LinearRegression_fit_least_squares (3 # 100) (9 # 10) _ _ Hlin
             training_gram_det).
  - intros humidity temperature. unfold predict_feels_like, train_prediction_model.
    cbv zeta. rewrite training_feels_like_targets.
    apply py_round_compat.
    rewrite (predict_fit_exact (3 # 100) (9 # 10) _ _ Hlin training_gram_det).
    field.
Qed.

(** ** Missing members *)

Lemma getitem_ok_member (v : json) (k : string) (x : json) :
  getitem v k = Ok x -> member v k = Some x.
Proof.
  destruct v; simpl; try discriminate. unfold dict_getitem.
  destruct (dict_lookup k kv); [| discriminate].
  intros H. injection H as <-. reflexivity.
Qed.

Lemma getitem0_then_member (weather w0 : json) (k : string) (x : json) :
  getitem0 weather = Ok w0 -> member w0 k = Some x ->
  exists rest, weather = JArr (w0 :: rest).
Proof.
  destruct weather as [| | | s | l |]; simpl; try discriminate.
  - destruct s; [discriminate |]. intros H. injection H as <-. discriminate.
  - destruct l as [| y l]; [discriminate |].
    intros H. injection H as <-. eauto.
Qed.

Lemma map_result_raise {A B} (f : A -> result B) (l : list A) (x : A) :
  In x l -> (exists e, f x = Raise e) -> exists e, map_result f l = Raise e.
Proof.
  induction l as [| y l IH]; intros Hin Hx; [destruct Hin |].
  simpl. destruct (f y) as [b | e] eqn:Hy; simpl; [| eauto].
  destruct Hin as [-> | Hin].
  - destruct Hx as (e & He). congruence.
  - destruct (IH Hin Hx) as (e & ->). simpl. eauto.
Qed.

Section ReadingFacts.

Variable fromtimestamp_date : Q -> result Z.

(** A reading the grouping loop gets through has every member the loop
    indexes. *)
Lemma read_item_ok_has_fields (item : json) (r : Reading) :
  read_item fromtimestamp_date item = Ok r -> reading_lacks_field item = false.
Proof.
  unfold read_item. intros H. bind_inv H.
  unfold date_of_item in E. bind_inv E.
  repeat bind_inv H.
  repeat match goal with
         | G : getitem _ _ = Ok _ |- _ => apply getitem_ok_member in G
         end.
  destruct (getitem0_then_member _ _ _ _ E12 E13) as (rest & ->).
  rewrite E1 in E3, E7. injection E3 as <-. injection E7 as <-.
  rewrite E11 in E14. injection E14 as <-.
  simpl in E15. injection E15 as <-.
  unfold reading_lacks_field.
  repeat match goal with
         | G : member _ _ = Some _ |- _ => rewrite G
         end.
  reflexivity.
Qed.

Lemma read_item_lacking_field_raises (item : json) :
  reading_lacks_field item = true ->
  exists e, read_item fromtimestamp_date item = Raise e.
Proof.
  intros Hlack.
  destruct (read_item fromtimestamp_date item) as [r | e] eqn:Hread; [| eauto].
  apply read_item_ok_has_fields in Hread. congruence.
Qed.

End ReadingFacts.

Section ExtractionFacts.

Variable title : string -> string.

Ltac split_shape H :=
  repeat match type of H with
         | (_ && _)%bool = true =>
             let H' := fresh "Hshape" in apply andb_prop in H as [H H']
         end.

(** In a well-shaped payload the only exception of the extraction is the
    [KeyError] of a missing member. *)
Lemma extract_missing_member_key_error (data : json) :
  well_shaped data = true ->
  has_required_fields data = false ->
  exists k, extract_weather_info_try title data = Raise (KeyError k).
Proof.
  intros Hs Hr. destruct data as [| | | | | kv]; try discriminate.
  unfold well_shaped in Hs. split_shape Hs.
  unfold has_required_fields in Hr.
  unfold extract_weather_info_try.
  cbn [member get_method getitem Py.bind] in *. unfold dict_get, dict_getitem.
  destruct (dict_lookup "sys" kv) as [[| | | | | sys] |]; try discriminate;
    cbn [get_method Py.bind].
  all: destruct (dict_lookup "main" kv) as [[| | | | | m] |];
    try discriminate; cbn [Py.bind getitem]; try solve [eauto].
  all: unfold dict_getitem; cbn [member absent_or is_object andb] in *;
    split_shape Hshape1.
  all: destruct (dict_lookup "temp" m) as [temp |]; cbn [Py.bind];
    try solve [eauto].
  all: cbn [absent_or] in *; unfold is_number in *;
    unfold round_json at 1;
    destruct (as_number temp); try discriminate; cbn [Py.bind].
  all: destruct (dict_lookup "humidity" m) as [hum |]; cbn [Py.bind];
    try solve [eauto].
  all: destruct (dict_lookup "wind" kv) as [[| | | | | w] |];
    try discriminate; cbn [Py.bind getitem]; try solve [eauto].
  all: unfold dict_getitem; cbn [member absent_or is_object andb] in *.
  all: destruct (dict_lookup "speed" w) as [speed |]; cbn [Py.bind];
    try solve [eauto].
  all: cbn [absent_or] in *;
    unfold round_json at 1;
    destruct (as_number speed); try discriminate; cbn [Py.bind].
  all: destruct (dict_lookup "feels_like" m) as [fl |]; cbn [Py.bind];
    try solve [eauto].
  all: cbn [absent_or] in *;
    unfold round_json at 1;
    destruct (as_number fl); try discriminate; cbn [Py.bind].
  all: destruct (dict_lookup "weather" kv) as [ws |]; cbn [Py.bind];
    try solve [eauto].
  all: cbn [absent_or] in *;
    destruct ws as [| | | | [| [| | | | | w0] rest] |]; try discriminate;
    cbn [first_weather getitem0 getitem Py.bind member] in *;
    unfold dict_getitem.
  all: destruct (dict_lookup "description" w0) as [descr |]; cbn [Py.bind];
    try solve [eauto].
  all: cbn [absent_or] in *; destruct descr; try discriminate;
    cbn [title_method Py.bind].
  all: destruct (dict_lookup "pressure" m) as [pressure |]; cbn [Py.bind];
    try solve [eauto].
  all: discriminate.
Qed.

(** C4 and C10 rest on it: a missing member makes the extraction return
    the empty dictionary. *)
Lemma extract_missing_member_empty (data : json) :
  well_shaped data = true ->
  has_required_fields data = false ->
  extract_weather_info title data = Ok [].
Proof.
  intros Hs Hr. unfold extract_weather_info.
  destruct (extract_missing_member_key_error data Hs Hr) as (k & ->).
  reflexivity.
Qed.

Lemma extract_other_exception_propagates (data : json) (e : exn) :
  extract_weather_info_try title data = Raise e ->
  (forall k, e <> KeyError k) ->
  extract_weather_info title data = Raise e.
Proof.
  intros H Hk. unfold extract_weather_info. rewrite H.
  destruct e; try reflexivity. exfalso. eapply Hk. reflexivity.
Qed.

(** What the extraction returns is the empty dictionary or one that has
    the "humidity" and "temperature" entries. *)
Lemma extract_ok_entries (data : json) (info : dict) :
  extract_weather_info title data = Ok info ->
  info = [] \/
  (exists hum temperature,
     dict_lookup "humidity" info = Some hum /\
     dict_lookup "temperature" info = Some (JNum temperature)).
Proof.
  unfold extract_weather_info.
  destruct (extract_weather_info_try title data) as [w | e] eqn:Htry.
  - intros H. injection H as <-. right.
    unfold extract_weather_info_try in Htry. repeat bind_inv Htry.
    injection Htry as <-. simpl. eauto.
  - destruct e; try discriminate. intros H. injection H as <-. left. reflexivity.
Qed.

End ExtractionFacts.

(** ** Missing members in the two flows *)

Section MissingMembers.

Variable RandomState : Type.
Variable seeded : Z -> RandomState.
Variable solver_fit : RandomState -> list (list Q) -> list Z -> LogisticRegression.
Variable ambient : RandomState.
Variable fromtimestamp_date : Q -> result Z.
Variable today : Z.
Variable set_iter : list json -> list json.
Variable title : string -> string.

Local Abbreviation process :=
  (process_forecast_data RandomState seeded solver_fit ambient
     fromtimestamp_date today set_iter).

Lemma process_guard_falsy (forecast_data : json) :
  truthy forecast_data = false -> process forecast_data = Ok [].
Proof. intros H. unfold process_forecast_data. rewrite H. reflexivity. Qed.

Lemma process_guard_no_list (forecast_data : json) :
  contains_str forecast_data "list" = Ok false -> process forecast_data = Ok [].
Proof.
  intros H. unfold process_forecast_data. rewrite H.
  destruct (negb (truthy forecast_data)); reflexivity.
Qed.

Lemma process_reading_lacking_field (forecast_data lst : json)
    (items : list json) (item : json) :
  truthy forecast_data = true ->
  getitem forecast_data "list" = Ok lst ->
  py_iter lst = Ok items ->
  In item items ->
  reading_lacks_field item = true ->
  exists e, process forecast_data = Raise e.
Proof.
  intros Htruthy Hlist Hiter Hin Hlack.
  rewrite process_forecast_data_unfold. unfold readings_of.
  rewrite Htruthy, Hlist. cbn [negb].
  assert (Hhas : contains_str forecast_data "list" = Ok true).
  { apply getitem_ok_member in Hlist.
    destruct forecast_data; try discriminate. simpl in *.
    unfold dict_has. rewrite Hlist. reflexivity. }
  rewrite Hhas. cbn [negb Py.bind]. rewrite Hiter. cbn [Py.bind].
  destruct (map_result_raise (read_item fromtimestamp_date) items item Hin
              (read_item_lacking_field_raises _ _ Hlack)) as (e & ->).
  simpl. eauto.
Qed.

Lemma filter_nil_iff {A} (f : A -> bool) (l : list A) :
  List.filter f l = [] <-> forall x, In x l -> f x = false.
Proof.
  induction l as [| y l IH]; simpl.
  - split; [intros _ x [] | reflexivity].
  - destruct (f y) eqn:Hy.
    + split; [discriminate |]. intros H.
      specialize (H y (or_introl eq_refl)). congruence.
    + rewrite IH. split.
      * intros H x [<- | Hx]; [exact Hy | apply H, Hx].
      * intros H x Hx. apply H. right. exact Hx.
Qed.

Lemma process_empty_iff (forecast_data : json) (res : list DailySummary) :
  process forecast_data = Ok res ->
  exists rs,
    readings_of fromtimestamp_date forecast_data = Ok rs /\
    (res = [] <-> forall d, In d (target_dates today) -> covered rs d = false).
Proof.
  intros H.
  destruct (process_forecast_data_summaries _ _ _ _ _ _ _ _ _ H)
    as (rs & Hrs & Hdates & _).
  exists rs. split; [exact Hrs |].
  rewrite <- filter_nil_iff, <- Hdates.
  destruct res; simpl; split; congruence.
Qed.

(** C4, as the code has it. The aggregation path catches nothing: it
    returns the empty list at its guard (an empty payload or one without
    "list"), and whenever it returns, the result is empty exactly when no
    reading falls on today+1 .. today+4; a reading that lacks a member is
    not caught and [process_forecast_data] raises. The extraction of the
    command-line path returns the empty dictionary when a member is missing
    from a well-shaped payload, and lets every exception other than
    [KeyError] through. *)
Theorem missing_members_aggregation_and_extraction :
  (forall forecast_data,
     truthy forecast_data = false \/
     contains_str forecast_data "list" = Ok false ->
     process forecast_data = Ok []) /\
  (forall forecast_data res,
     process forecast_data = Ok res ->
     exists rs,
       readings_of fromtimestamp_date forecast_data = Ok rs /\
       (res = [] <->
        forall d, In d (target_dates today) -> covered rs d = false)) /\
  (forall forecast_data lst items item,
     truthy forecast_data = true ->
     getitem forecast_data "list" = Ok lst ->
     py_iter lst = Ok items ->
     In item items ->
     reading_lacks_field item = true ->
     exists e, process forecast_data = Raise e) /\
  (forall data,
     well_shaped data = true ->
     has_required_fields data = false ->
     extract_weather_info title data = Ok []) /\
  (forall data e,
     extract_weather_info_try title data = Raise e ->
     (forall k, e <> KeyError k) ->
     extract_weather_info title data = Raise e).
Proof.
  split; [| split; [| split; [| split]]].
  - intros forecast_data [H | H];
      [apply process_guard_falsy | apply process_guard_no_list]; exact H.
  - apply process_empty_iff.
  - apply process_reading_lacking_field.
  - apply extract_missing_member_empty.
  - apply extract_other_exception_propagates.
Qed.

End MissingMembers.

(** Counterexample to C4 as stated: a forecast reading without "main"
    makes the aggregation raise [KeyError], and a current-weather payload
    whose "weather" array is empty makes the extraction raise
    [IndexError]; neither returns an empty result. *)
Lemma missing_member_raises :
  Sample.process Sample.reverse_seen Sample.forecast_missing_main =
    Raise (KeyError (JStr "main")) /\
  extract_weather_info Sample.ascii_title Sample.current_empty_weather =
    Raise IndexError.
Proof. split; vm_compute; reflexivity. Qed.

(** Witness of the amended C4 on the sample payloads. *)
Lemma missing_members_aggregation_and_extraction_sample :
  Sample.process Sample.reverse_seen (JObj []) = Ok [] /\
  (exists rs,
     readings_of Sample.utc_date (JObj [("list", JArr [])]) = Ok rs /\
     (@nil DailySummary = [] <->
      forall d, In d (target_dates Sample.today) -> covered rs d = false)) /\
  (exists e, Sample.process Sample.reverse_seen Sample.forecast_missing_main
             = Raise e) /\
  extract_weather_info Sample.ascii_title Sample.current_without_wind = Ok [] /\
  extract_weather_info Sample.ascii_title Sample.current_empty_weather =
    Raise IndexError.
Proof.
  destruct (missing_members_aggregation_and_extraction unit (fun _ => tt)
              Sample.fit tt Sample.utc_date Sample.today Sample.reverse_seen
              Sample.ascii_title) as (Hguard & Hiff & Hlack & Hempty & Hother).
  split; [apply Hguard; left; reflexivity |].
  split; [apply (Hiff (JObj [("list", JArr [])]) []); reflexivity |].
  split.
  { eapply (Hlack Sample.forecast_missing_main _ _ (JObj [("dt", JNum 90000)]));
      [reflexivity | reflexivity | reflexivity | left; reflexivity | reflexivity]. }
  split; [apply Hempty; reflexivity |].
  apply Hother; [vm_compute; reflexivity | intros k; discriminate].
Defined.

(** ** The command-line flow *)

Section MainFacts.

Variable title : string -> string.

Lemma display_nonempty_reports (location : string) (entry : string * json)
    (weather : dict) (ai_prediction : Q) (o : outcome) :
  display_weather_summary location (entry :: weather) ai_prediction = Ok o ->
  o <> NothingDisplayed.
Proof.
  unfold display_weather_summary. intros H. repeat bind_inv H.
  destruct (as_number v7); [| discriminate].
  injection H as <-. discriminate.
Qed.

(** [main] never gets to the empty-dictionary guard of
    [display_weather_summary]: the dictionary is indexed first. *)
Lemma run_never_displays_nothing (location : option (string * Q * Q))
    (fetch : Q -> Q -> option json) :
  run title location fetch <> NothingDisplayed.
Proof.
  unfold run, main.
  destruct location as [[[city lat] lng] |]; [| discriminate].
  destruct (fetch lat lng) as [weather_raw |]; [| discriminate].
  destruct (negb (truthy weather_raw)); [discriminate |].
  destruct (extract_weather_info title weather_raw) as [info | e];
    [| discriminate]. cbn [Py.bind].
  destruct info as [| entry info]; [discriminate |].
  destruct (dict_getitem (entry :: info) "humidity"); [| discriminate].
  cbn [Py.bind].
  destruct (dict_getitem (entry :: info) "temperature"); [| discriminate].
  cbn [Py.bind].
  destruct (feature a); [| discriminate]. cbn [Py.bind].
  destruct (feature a0); [| discriminate]. cbn [Py.bind].
  destruct (display_weather_summary _ _ _) as [o | e] eqn:Hd; [| discriminate].
  eapply display_nonempty_reports, Hd.
Qed.

(** C10, as the code has it. When the location is found and the provider
    answers a non-empty, well-shaped payload that lacks a member the
    extraction indexes, [extract_weather_info] returns the empty dictionary
    and [main] then indexes it with "humidity": the run ends in the
    top-level handler with [KeyError('humidity')]. No run at all ends at
    the empty-dictionary guard of [display_weather_summary]. *)
Theorem main_missing_member_is_fatal (city : string) (lat lng : Q)
    (fetch : Q -> Q -> option json) (data : json) :
  fetch lat lng = Some data ->
  truthy data = true ->
  well_shaped data = true ->
  has_required_fields data = false ->
  extract_weather_info title data = Ok [] /\
  run title (Some (city, lat, lng)) fetch = Fatal (KeyError (JStr "humidity")) /\
  (forall location fetch', run title location fetch' <> NothingDisplayed).
Proof.
  intros Hfetch Htruthy Hshape Hmissing.
  pose proof (extract_missing_member_empty title data Hshape Hmissing) as Hempty.
  split; [exact Hempty |]. split; [| apply run_never_displays_nothing].
  unfold run, main. rewrite Hfetch, Htruthy. cbn [negb].
  rewrite Hempty. reflexivity.
Qed.

End MainFacts.

(** Witness of the amended C10: the sample payload without "wind". *)
Lemma main_missing_member_is_fatal_sample :
  extract_weather_info Sample.ascii_title Sample.current_without_wind = Ok [] /\
  Sample.run Sample.current_without_wind = Fatal (KeyError (JStr "humidity")) /\
  (forall location fetch',
     run Sample.ascii_title location fetch' <> NothingDisplayed).
Proof.
  exact (main_missing_member_is_fatal Sample.ascii_title "London" 51.5%Q
           (-0.12)%Q (fun _ _ => Some Sample.current_without_wind)
           Sample.current_without_wind eq_refl eq_refl eq_refl eq_refl).
Defined.

(** Counterexample to C10 as stated: the empty payload lacks every
    member, yet [main] takes it for a failed fetch and returns before the
    extraction; and a payload whose "weather" array is empty ends in the
    top-level handler with [IndexError], the extraction never returning. *)
Lemma missing_member_without_key_error :
  has_required_fields (JObj []) = false /\
  extract_weather_info Sample.ascii_title (JObj []) = Ok [] /\
  Sample.run (JObj []) = FetchFailed /\
  has_required_fields Sample.current_empty_weather = false /\
  Sample.run Sample.current_empty_weather = Fatal IndexError.
Proof. repeat split; vm_compute; reflexivity. Qed.

(* ===================================================================== *)
(** * Further properties of the code                                      *)
(* ===================================================================== *)

(** ** The grouping loop and the target days *)

Lemma map_result_length {A B} (f : A -> result B) (l : list A) (ys : list B) :
  map_result f l = Ok ys -> length ys = length l.
Proof.
  revert ys. induction l as [| x l IH]; intros ys H; simpl in H.
  - injection H as <-. reflexivity.
  - bind_inv H. bind_inv H. injection H as <-. simpl. f_equal. apply IH, E0.
Qed.

Section TargetDays.

Variable RandomState : Type.
Variable seeded : Z -> RandomState.
Variable solver_fit : RandomState -> list (list Q) -> list Z -> LogisticRegression.
Variable ambient : RandomState.
Variable fromtimestamp_date : Q -> result Z.
Variable today : Z.
Variable set_iter : list json -> list json.

Local Abbreviation model :=
  (train_rain_prediction_model RandomState seeded solver_fit ambient).
Local Abbreviation readings := (readings_of fromtimestamp_date).
Local Abbreviation process :=
  (process_forecast_data RandomState seeded solver_fit ambient
     fromtimestamp_date today set_iter).

(** X1. The grouping loop, when it gets through the list, has read every item
    and leaves in [daily_forecasts] one bucket for each date that has a
    reading and none for any other date; the seven lists of a bucket hold
    the values of that date's readings in reading order. *)
Theorem grouping_loop_buckets (items : list json) (daily : gmap Z Bucket.t) :
  for_each (group_item fromtimestamp_date) items ∅ = Ok daily ->
  exists rs,
    map_result (read_item fromtimestamp_date) items = Ok rs /\
    length rs = length items /\
    forall d,
      daily !! d =
      if covered rs d
      then Some (Bucket.mk d
                   (map r_temp (readings_on rs d))
                   (map r_humidity (readings_on rs d))
                   (map r_cloud (readings_on rs d))
                   (map r_pressure (readings_on rs d))
                   (map r_wind (readings_on rs d))
                   (map r_descr (readings_on rs d))
                   (map r_icon (readings_on rs d)))
      else None.
Proof.
  rewrite for_each_group_item. intros H. bind_inv H. injection H as <-.
  exists v. split; [exact E |]. split; [eapply map_result_length, E |].
  intros d. rewrite lookup_grouped, daily_bucket_fields. reflexivity.
Qed.

Lemma summary_loop_ext (m : LogisticRegression) (daily1 daily2 : gmap Z Bucket.t)
    (offsets : list Z) (acc : list DailySummary) :
  (forall i, In i offsets -> daily1 !! (today + i) = daily2 !! (today + i)) ->
  for_each (summary_step today set_iter m daily1) offsets acc =
  for_each (summary_step today set_iter m daily2) offsets acc.
Proof.
  revert acc. induction offsets as [| i offsets IH]; intros acc H; simpl.
  - reflexivity.
  - unfold summary_step at 1 3. rewrite (H i (or_introl eq_refl)).
    destruct (daily2 !! (today + i)) as [data |].
    + destruct (summarize set_iter m (today + i) data); simpl; [| reflexivity].
      apply IH. intros j Hj. apply H. right. exact Hj.
    + simpl. apply IH. intros j Hj. apply H. right. exact Hj.
Qed.

Lemma target_offset (i : Z) :
  In i [1; 2; 3; 4] -> In (today + i) (target_dates today).
Proof. unfold target_dates. intros H. apply in_map. exact H. Qed.

(** X2. Readings dated outside today+1 .. today+4 never reach the result: two
    payloads that are read without exception and have the same readings on
    each of the four target days give the same result, summaries and
    exceptions alike. *)
Theorem process_ignores_other_days (forecast_data1 forecast_data2 : json)
    (rs1 rs2 : list Reading) :
  readings forecast_data1 = Ok rs1 ->
  readings forecast_data2 = Ok rs2 ->
  (forall d, In d (target_dates today) -> readings_on rs1 d = readings_on rs2 d) ->
  process forecast_data1 = process forecast_data2.
Proof.
  intros H1 H2 Hsame.
  rewrite !process_forecast_data_unfold, H1, H2. cbn [Py.bind].
  apply summary_loop_ext. intros i Hi.
  rewrite !lookup_grouped, !covered_readings_on. unfold daily_bucket.
  rewrite (Hsame _ (target_offset i Hi)). reflexivity.
Qed.

(** X3. When no reading falls on a target day the result is the empty list,
    whatever the values of the readings are: they are never looked at. *)
Theorem process_no_target_readings (forecast_data : json) (rs : list Reading) :
  readings forecast_data = Ok rs ->
  (forall d, In d (target_dates today) -> covered rs d = false) ->
  process forecast_data = Ok [].
Proof.
  intros Hrs Hnone.
  rewrite process_forecast_data_unfold, Hrs. cbn [Py.bind].
  rewrite (summary_loop_ext _ _ ∅ _ _).
  - reflexivity.
  - intros i Hi. rewrite lookup_grouped, (Hnone _ (target_offset i Hi)).
    rewrite lookup_empty. reflexivity.
Qed.

End TargetDays.

(** ** More on one summary *)

Lemma as_numbers_In (l : list json) (qs : list Q) (q : Q) :
  as_numbers l = Some qs -> In q qs ->
  exists v, In v l /\ as_number v = Some q.
Proof.
  revert qs. induction l as [| v l IH]; intros qs H Hin; simpl in H.
  - injection H as <-. destruct Hin.
  - destruct (as_number v) as [x |] eqn:Hv; [| discriminate].
    destruct (as_numbers l) as [xs |]; [| discriminate].
    injection H as <-. destruct Hin as [<- | Hin].
    + exists v. split; [left; reflexivity | exact Hv].
    + destruct (IH xs eq_refl Hin) as (w & Hw & Hq). exists w.
      split; [right; exact Hw | exact Hq].
Qed.

Lemma py_round_rounded_to (x : Q) (n : nat) : rounded_to n (py_round x n) x.
Proof.
  unfold rounded_to, py_round.
  pose proof (scale_pos n) as Hs.
  set (sc := inject_Z (10 ^ Z.of_nat n)) in *.
  split; [eexists; reflexivity |].
  pose proof (round_half_even_bounds (x * sc)) as [Hlo Hhi].
  set (r := inject_Z (round_half_even (x * sc))) in *.
  assert (Hi : (0 < / sc)%Q) by (apply Qinv_lt_0_compat; exact Hs).
  assert (E1 : (sc * / sc == 1)%Q) by (field; lra).
  unfold Qdiv. set (inv := (/ sc)%Q) in *.
  assert (U : ((r - x * sc) * inv <= (1 # 2) * inv)%Q)
    by (apply Qmult_le_compat_r; lra).
  assert (L : ((- (1 # 2)) * inv <= (r - x * sc) * inv)%Q)
    by (apply Qmult_le_compat_r; lra).
  assert (E2 : ((r - x * sc) * inv == r * inv - x * (sc * inv))%Q) by ring.
  rewrite E1 in E2.
  apply Qabs_Qle_condition. split; lra.
Qed.

Lemma set_iter_singleton (set_iter : list json -> list json) (x : json) :
  set_order set_iter -> is_string x = true -> set_iter [x] = [x].
Proof.
  intros Hset Hx. destruct (Hset [x]) as [Hnodup Hin].
  { simpl. rewrite Hx. reflexivity. }
  destruct (set_iter [x]) as [| y l].
  - exfalso. apply (Hin x). left. reflexivity.
  - assert (y = x) by (destruct (proj1 (Hin y) (or_introl eq_refl)) as [-> | []]; reflexivity).
    subst y. destruct l as [| z l]; [reflexivity |].
    assert (z = x)
      by (destruct (proj1 (Hin z) (or_intror (or_introl eq_refl))) as [-> | []]; reflexivity).
    subst z. apply List.NoDup_cons_iff in Hnodup as [Hnot _].
    exfalso. apply Hnot. left. reflexivity.
Qed.

Section SummaryMore.

Variable RandomState : Type.
Variable seeded : Z -> RandomState.
Variable solver_fit : RandomState -> list (list Q) -> list Z -> LogisticRegression.
Variable ambient : RandomState.
Variable fromtimestamp_date : Q -> result Z.
Variable today : Z.
Variable set_iter : list json -> list json.

Local Abbreviation model :=
  (train_rain_prediction_model RandomState seeded solver_fit ambient).
Local Abbreviation readings := (readings_of fromtimestamp_date).
Local Abbreviation process :=
  (process_forecast_data RandomState seeded solver_fit ambient
     fromtimestamp_date today set_iter).

Variable forecast_data : json.
Variable rs : list Reading.
Variable res : list DailySummary.
Variable s : DailySummary.
Hypothesis Hrs : readings forecast_data = Ok rs.
Hypothesis Hres : process forecast_data = Ok res.
Hypothesis Hin : In s res.

Lemma emitted_summary_fields :
  summarize set_iter model (date s)
    (Bucket.mk (date s)
       (map r_temp (readings_on rs (date s)))
       (map r_humidity (readings_on rs (date s)))
       (map r_cloud (readings_on rs (date s)))
       (map r_pressure (readings_on rs (date s)))
       (map r_wind (readings_on rs (date s)))
       (map r_descr (readings_on rs (date s)))
       (map r_icon (readings_on rs (date s)))) = Ok s.
Proof.
  destruct (emitted_summary _ _ _ _ _ _ _ _ _ _ _ Hrs Hres Hin) as [_ Hsum].
  rewrite daily_bucket_fields in Hsum. exact Hsum.
Qed.

(** X4. The icon of a summary is the icon of the first reading of its date,
    in reading order, whichever icon is the most frequent. *)
Theorem summary_icon_first_reading :
  exists r rest,
    readings_on rs (date s) = r :: rest /\ icon s = r_icon r.
Proof.
  pose proof (summarize_icon _ _ _ _ _ emitted_summary_fields) as Hicon.
  cbn [Bucket.icons] in Hicon.
  destruct (readings_on rs (date s)) as [| r rest]; [discriminate |].
  simpl in Hicon. injection Hicon as <-. eauto.
Qed.

(** X5. A date with exactly one reading: the minimum and the maximum
    temperature coincide and are that reading's temperature rounded to one
    decimal (one decimal, within 0.05 of it), the condition is its
    description and the icon its icon. *)
Theorem summary_of_single_reading (r : Reading) :
  set_order set_iter ->
  readings_on rs (date s) = [r] ->
  is_string (r_descr r) = true ->
  exists t,
    as_number (r_temp r) = Some t /\
    min_temp s = max_temp s /\
    rounded_to 1 (min_temp s) t /\
    condition s = r_descr r /\
    icon s = r_icon r.
Proof.
  intros Hset Hone Hstr.
  pose proof emitted_summary_fields as Hsum. rewrite Hone in Hsum.
  cbn [map] in Hsum.
  destruct (summarize_temps _ _ _ _ _ Hsum) as (t & ts & Ht & Hmin & Hmax & _).
  cbn [Bucket.temps as_numbers] in Ht.
  destruct (as_number (r_temp r)) as [t' |]; [| discriminate].
  injection Ht as <- <-. exists t'.
  split; [reflexivity |]. split; [rewrite Hmin, Hmax; reflexivity |].
  split; [rewrite Hmin; apply py_round_rounded_to |].
  destruct (summarize_condition _ _ _ _ _ Hsum) as [_ Hcond].
  cbn [Bucket.descriptions] in Hcond.
  rewrite (set_iter_singleton _ _ Hset Hstr) in Hcond.
  simpl in Hcond. injection Hcond as <-.
  pose proof (summarize_icon _ _ _ _ _ Hsum) as Hicon.
  simpl in Hicon. injection Hicon as <-. auto.
Qed.

(** X6. A description that occurs strictly more often than every other one is
    the condition, whatever the iteration order of the set. *)
Theorem summary_condition_unique_mode (x : json) :
  set_order set_iter ->
  forallb is_string (map r_descr (readings_on rs (date s))) = true ->
  In x (map r_descr (readings_on rs (date s))) ->
  (forall y, In y (map r_descr (readings_on rs (date s))) -> y <> x ->
     (count (map r_descr (readings_on rs (date s))) y <
      count (map r_descr (readings_on rs (date s))) x)%nat) ->
  condition s = x.
Proof.
  intros Hset Hstr Hx Hmode.
  destruct (summarize_condition _ _ _ _ _ emitted_summary_fields) as [_ Hcond].
  cbn [Bucket.descriptions] in Hcond.
  set (descs := map r_descr (readings_on rs (date s))) in *.
  destruct (Hset descs Hstr) as [_ Hiter].
  destruct (max_by_spec _ _ _ Hcond) as (Hle & before & after & Heq & _).
  assert (Hc : In (condition s) descs).
  { apply Hiter. rewrite Heq. apply in_or_app. right. left. reflexivity. }
  assert (Hxs : is_string x = true).
  { rewrite forallb_forall in Hstr. apply Hstr, Hx. }
  destruct (py_eqb (condition s) x) eqn:E.
  - apply (py_eqb_string x (condition s) Hxs). exact E.
  - assert (Hne : condition s <> x).
    { intros Heq'. apply (py_eqb_string x (condition s) Hxs) in Heq'. congruence. }
    pose proof (Hmode _ Hc Hne) as Hlt.
    pose proof (Hle x (proj2 (Hiter x) Hx)) as Hge. lia.
Qed.

(** X7. The temperatures and the wind speed of a summary have one decimal and
    lie within 0.05 of the exact minimum, maximum and means of the bucket;
    the rain probability has one decimal. *)
Theorem summary_fields_one_decimal :
  exists t ts w ws,
    as_numbers (map r_temp (readings_on rs (date s))) = Some (t :: ts) /\
    as_numbers (map r_wind (readings_on rs (date s))) = Some (w :: ws) /\
    rounded_to 1 (min_temp s) (Qmin_list t ts) /\
    rounded_to 1 (max_temp s) (Qmax_list t ts) /\
    rounded_to 1 (avg_temp s) (Qmean (t :: ts)) /\
    rounded_to 1 (wind_speed s) (Qmean (w :: ws)) /\
    exists k : Z, (rain_probability s == inject_Z k / 10)%Q.
Proof.
  pose proof emitted_summary_fields as Hsum.
  destruct (summarize_temps _ _ _ _ _ Hsum) as (t & ts & Ht & Hmin & Hmax & Havg).
  destruct (summarize_averages _ _ _ _ _ Hsum)
    as (h & hs & c & cs & p & ps & w & ws & _ & _ & _ & Hw & _ & _ & Hwind & Hrp).
  cbn [Bucket.temps Bucket.wind_speeds] in *.
  exists t, ts, w, ws.
  split; [exact Ht |]. split; [exact Hw |].
  rewrite Hmin, Hmax, Havg, Hwind, Hrp.
  repeat (split; [apply py_round_rounded_to |]).
  unfold predict_rain_probability, py_round. eexists. reflexivity.
Qed.

(** X8. Percentages stay percentages: when every humidity reading of the date
    lies in [0, 100] so does the summary's humidity, and the same holds for
    the cloud cover. *)
Theorem summary_percentages_in_range :
  (forall r q, In r (readings_on rs (date s)) ->
     as_number (r_humidity r) = Some q -> (0 <= q <= 100)%Q) ->
  (forall r q, In r (readings_on rs (date s)) ->
     as_number (r_cloud r) = Some q -> (0 <= q <= 100)%Q) ->
  0 <= humidity s <= 100 /\ 0 <= cloud_cover s <= 100.
Proof.
  intros Hhum Hcloud.
  pose proof emitted_summary_fields as Hsum.
  destruct (summarize_averages _ _ _ _ _ Hsum)
    as (h & hs & c & cs & p & ps & w & ws & Hh & Hc & _ & _ & Eh & Ec & _).
  cbn [Bucket.humidities Bucket.cloud_cover] in *.
  assert (Hrange : forall (f : Reading -> json) qs,
             (forall r q, In r (readings_on rs (date s)) ->
                as_number (f r) = Some q -> (0 <= q <= 100)%Q) ->
             as_numbers (map f (readings_on rs (date s))) = Some qs ->
             forall q, In q qs -> (0 <= q <= 100)%Q).
  { intros f qs Hf Hqs q Hq.
    destruct (as_numbers_In _ _ _ Hqs Hq) as (v & Hv & Hnum).
    apply in_map_iff in Hv as (r & <- & Hr). eapply Hf; eassumption. }
  assert (Hint : forall x : Q, (0 <= x <= 100)%Q -> 0 <= py_int x <= 100).
  { intros x [Hlo Hhi]. unfold py_int.
    destruct (Qle_bool 0 x) eqn:Hb.
    - split.
      + change 0 with (Qfloor 0). apply Qfloor_resp_le, Hlo.
      + change 100 with (Qfloor 100). apply Qfloor_resp_le, Hhi.
    - apply Qle_bool_iff in Hlo. congruence. }
  rewrite Eh, Ec. split; apply Hint, Qmean_between.
  - apply (Hrange r_humidity _ Hhum Hh).
  - apply (Hrange r_cloud _ Hcloud Hc).
Qed.

End SummaryMore.

(** ** More on the endpoints *)

Lemma or_unknown_nonempty (o : option string) : or_unknown o <> "".
Proof. destruct o as [[| c r] |]; simpl; discriminate. Qed.

Lemma get_location_from_ip_some (geocoder_ip : result (option GeoResult))
    (l : Location) :
  get_location_from_ip geocoder_ip = Some l ->
  loc_city l <> "" /\ loc_country l <> "" /\
  exists g, geocoder_ip = Ok (Some g) /\
            g_latlng g = Some (loc_lat l, loc_lng l).
Proof.
  unfold get_location_from_ip.
  destruct geocoder_ip as [[g |] | e]; try discriminate.
  destruct (g_latlng g) as [[la ln] |] eqn:Hll; [| discriminate].
  intros H. injection H as <-. simpl.
  repeat split; try apply or_unknown_nonempty. eauto.
Qed.

(** X11. A resolved location always names a city and a country ("Unknown" at
    worst). From the IP lookup it carries the geocoder's coordinates; from
    explicit coordinates it carries those coordinates unchanged. *)
Theorem resolved_location_named :
  (forall geocoder_ip l,
     get_location_from_ip geocoder_ip = Some l ->
     loc_city l <> "" /\ loc_country l <> "" /\
     exists g, geocoder_ip = Ok (Some g) /\
               g_latlng g = Some (loc_lat l, loc_lng l)) /\
  (forall geocoder_reverse_geocode lat lng l,
     get_location_from_coordinates geocoder_reverse_geocode lat lng = Some l ->
     loc_city l <> "" /\ loc_country l <> "" /\
     loc_lat l = lat /\ loc_lng l = lng).
Proof.
  split.
  - apply get_location_from_ip_some.
  - intros rev lat lng l. unfold get_location_from_coordinates.
    destruct (rev lat lng) as [[g |] | e]; try discriminate.
    intros H. injection H as <-. simpl.
    repeat split; apply or_unknown_nonempty.
Qed.

Section EndpointMore.

Variable RandomState : Type.
Variable seeded : Z -> RandomState.
Variable solver_fit : RandomState -> list (list Q) -> list Z -> LogisticRegression.
Variable ambient : RandomState.
Variable fromtimestamp_date : Q -> result Z.
Variable today : Z.
Variable set_iter : list json -> list json.
Variable API_KEY : option string.
Variable geocoder_ip : result (option GeoResult).
Variable geocoder_reverse_geocode : Q -> Q -> result (option GeoResult).

Local Abbreviation process :=
  (process_forecast_data RandomState seeded solver_fit ambient
     fromtimestamp_date today set_iter).
Local Abbreviation endpoint :=
  (get_forecast RandomState seeded solver_fit ambient fromtimestamp_date
     today set_iter API_KEY geocoder_ip geocoder_reverse_geocode).

Local Abbreviation found := (located geocoder_ip geocoder_reverse_geocode).

Lemma get_forecast_status_cases (forecast_request : Q -> Q -> result json)
    (lat lng : option Q) :
  (fst (endpoint forecast_request lat lng) = 200 \/
   fst (endpoint forecast_request lat lng) = 400 \/
   fst (endpoint forecast_request lat lng) = 500) /\
  (fst (endpoint forecast_request lat lng) = 400 <->
   (lat = None \/ lng = None) /\ get_location_from_ip geocoder_ip = None).
Proof.
  unfold get_forecast, get_forecast_try, fetch_forecast.
  assert (Hafter : forall location,
    let r := match
        (if api_key_missing API_KEY
         then Ok (500, ErrorBody "API key not configured")
         else
           let* la := subscript_location location loc_lat in
           let* ln := subscript_location location loc_lng in
           match
             (if api_key_missing API_KEY then None
              else match forecast_request la ln with
                   | Ok data => Some data
                   | Raise _ => None
                   end)
           with
           | None => Ok (500, ErrorBody "Could not fetch forecast")
           | Some forecast_data =>
               if negb (truthy forecast_data)
               then Ok (500, ErrorBody "Could not fetch forecast")
               else
                 let* forecast := process forecast_data in
                 Ok (200, ForecastBody location forecast)
           end)
      with
      | Ok response => response
      | Raise e => (500, ExceptionBody e)
      end in
    (fst r = 200 \/ fst r = 500) /\ fst r <> 400).
  { intros location. cbv zeta.
    destruct (api_key_missing API_KEY); [simpl; split; [auto | discriminate] |].
    destruct location as [l |]; cbn [subscript_location Py.bind];
      [| simpl; split; [auto | discriminate]].
    destruct (forecast_request (loc_lat l) (loc_lng l)) as [fd | e];
      [| simpl; split; [auto | discriminate]].
    destruct (negb (truthy fd)); [simpl; split; [auto | discriminate] |].
    destruct (process fd); simpl; split; auto; discriminate. }
  destruct lat as [la |], lng as [ln |].
  - destruct (Hafter (get_location_from_coordinates geocoder_reverse_geocode la ln))
      as [Hcases Hnot].
    split; [tauto |]. split; [intros H; contradiction |].
    intros [[H | H] _]; discriminate.
  - destruct (get_location_from_ip geocoder_ip) as [l |] eqn:Hip.
    + destruct (Hafter (Some l)) as [Hcases Hnot].
      split; [tauto |]. split; [intros H; contradiction |].
      intros [_ H]; discriminate.
    + simpl. split; [auto |]. split; auto.
  - destruct (get_location_from_ip geocoder_ip) as [l |] eqn:Hip.
    + destruct (Hafter (Some l)) as [Hcases Hnot].
      split; [tauto |]. split; [intros H; contradiction |].
      intros [_ H]; discriminate.
    + simpl. split; [auto |]. split; auto.
  - destruct (get_location_from_ip geocoder_ip) as [l |] eqn:Hip.
    + destruct (Hafter (Some l)) as [Hcases Hnot].
      split; [tauto |]. split; [intros H; contradiction |].
      intros [_ H]; discriminate.
    + simpl. split; [auto |]. split; auto.
Qed.

(** X12. The status is 200, 400 or 500, and it is 400 exactly when a
    coordinate is missing from the query and the IP lookup fails. *)
Theorem get_forecast_status (forecast_request : Q -> Q -> result json)
    (lat lng : option Q) :
  (fst (endpoint forecast_request lat lng) = 200 \/
   fst (endpoint forecast_request lat lng) = 400 \/
   fst (endpoint forecast_request lat lng) = 500) /\
  (fst (endpoint forecast_request lat lng) = 400 <->
   (lat = None \/ lng = None) /\ get_location_from_ip geocoder_ip = None).
Proof. apply get_forecast_status_cases. Qed.

(** X13. Without a configured key the provider is never consulted and nothing
    is processed: the answer is 400 for an undetectable location, and 500
    "API key not configured" in every other case. *)
Theorem get_forecast_without_key (forecast_request : Q -> Q -> result json)
    (lat lng : option Q) :
  api_key_missing API_KEY = true ->
  endpoint forecast_request lat lng =
    (400, ErrorBody "Could not detect location") \/
  endpoint forecast_request lat lng =
    (500, ErrorBody "API key not configured").
Proof.
  intros Hkey. unfold get_forecast, get_forecast_try. rewrite Hkey.
  destruct lat as [la |], lng as [ln |];
    try (destruct (get_location_from_ip geocoder_ip) eqn:Hip);
    simpl; auto.
Qed.

(** X14. With the key configured, the location resolved and a non-empty payload
    fetched for its coordinates, the answer is the result of the processing:
    200 with the location and the forecast, or 500 with the text of the
    exception the processing raised. *)
Theorem get_forecast_resolved (forecast_request : Q -> Q -> result json)
    (lat lng : option Q) (l : Location) (forecast_data : json) :
  found lat lng l ->
  api_key_missing API_KEY = false ->
  forecast_request (loc_lat l) (loc_lng l) = Ok forecast_data ->
  truthy forecast_data = true ->
  endpoint forecast_request lat lng =
    match process forecast_data with
    | Ok forecast => (200, ForecastBody (Some l) forecast)
    | Raise e => (500, ExceptionBody e)
    end.
Proof.
  intros Hloc Hkey Hreq Htruthy.
  unfold get_forecast, get_forecast_try, fetch_forecast, located in *.
  rewrite Hkey.
  destruct lat as [la |], lng as [ln |]; rewrite Hloc;
    cbn [subscript_location Py.bind]; rewrite Hreq, Htruthy; cbn [negb];
    destruct (process forecast_data); reflexivity.
Qed.

(** X15. A 200 answer always carries a resolved location and the forecast the
    processing returned for the payload fetched at that location: at most
    four summaries, in ascending date order, each dated within the four days
    after today. *)
Theorem get_forecast_ok_response (forecast_request : Q -> Q -> result json)
    (lat lng : option Q) (b : body) :
  endpoint forecast_request lat lng = (200, b) ->
  exists l forecast_data forecast,
    found lat lng l /\
    api_key_missing API_KEY = false /\
    forecast_request (loc_lat l) (loc_lng l) = Ok forecast_data /\
    process forecast_data = Ok forecast /\
    b = ForecastBody (Some l) forecast /\
    (length forecast <= 4)%nat /\
    StronglySorted Z.lt (map date forecast) /\
    (forall s, In s forecast -> today < date s <= today + 4).
Proof.
  intros H.
  assert (Hafter : forall location,
    match
        (if api_key_missing API_KEY
         then Ok (500, ErrorBody "API key not configured")
         else
           let* la := subscript_location location loc_lat in
           let* ln := subscript_location location loc_lng in
           match fetch_forecast API_KEY forecast_request la ln with
           | None => Ok (500, ErrorBody "Could not fetch forecast")
           | Some forecast_data =>
               if negb (truthy forecast_data)
               then Ok (500, ErrorBody "Could not fetch forecast")
               else
                 let* forecast := process forecast_data in
                 Ok (200, ForecastBody location forecast)
           end)
      with
      | Ok response => response
      | Raise e => (500, ExceptionBody e)
      end = (200, b) ->
    exists l forecast_data forecast,
      location = Some l /\
      api_key_missing API_KEY = false /\
      forecast_request (loc_lat l) (loc_lng l) = Ok forecast_data /\
      process forecast_data = Ok forecast /\
      b = ForecastBody (Some l) forecast).
  { intros location. unfold fetch_forecast.
    destruct (api_key_missing API_KEY); [discriminate |].
    destruct location as [l |]; cbn [subscript_location Py.bind]; [| discriminate].
    destruct (forecast_request (loc_lat l) (loc_lng l)) as [fd | e] eqn:Hreq;
      [| discriminate].
    destruct (negb (truthy fd)); [discriminate |].
    destruct (process fd) as [forecast | e] eqn:Hp; [| discriminate].
    simpl. intros Hb. injection Hb as <-. exists l, fd, forecast. auto. }
  assert (Hex : exists l forecast_data forecast,
             found lat lng l /\
             api_key_missing API_KEY = false /\
             forecast_request (loc_lat l) (loc_lng l) = Ok forecast_data /\
             process forecast_data = Ok forecast /\
             b = ForecastBody (Some l) forecast).
  { unfold get_forecast, get_forecast_try in H. unfold located.
    destruct lat as [la |], lng as [ln |];
      try (destruct (get_location_from_ip geocoder_ip) as [l0 |] eqn:Hip;
           [| discriminate]);
      apply Hafter in H; destruct H as (l & fd & fc & Hl & Hrest);
      exists l, fd, fc; (split; [congruence | exact Hrest]). }
  destruct Hex as (l & fd & fc & Hl & Hkey & Hreq & Hp & Hb).
  exists l, fd, fc. repeat (split; [assumption |]).
  destruct (process_forecast_data_summaries _ _ _ _ _ _ _ _ _ Hp)
    as (rs & _ & Hdates & _).
  pose proof (filter_target_length (covered rs) today) as [Hlen _].
  rewrite <- Hdates, length_map in Hlen.
  split; [exact Hlen |]. split.
  - rewrite Hdates. apply filter_sorted, target_dates_sorted.
  - intros s Hs. apply (in_map date) in Hs. rewrite Hdates in Hs.
    apply List.filter_In in Hs as [Hs _]. unfold target_dates in Hs.
    simpl in Hs. lia.
Qed.

End EndpointMore.

(** X16. [/api/location] answers 200, with the geocoder's coordinates, when the
    IP lookup yields a coordinate pair, and 400 in every other case, an
    exception of the geocoder included; never 500. It answers 400 exactly
    when [/api/forecast] without coordinates does. *)
Theorem get_location_status (geocoder_ip : result (option GeoResult)) :
  (fst (get_location geocoder_ip) = 200 \/ fst (get_location geocoder_ip) = 400) /\
  (fst (get_location geocoder_ip) = 200 <->
   exists g la ln, geocoder_ip = Ok (Some g) /\ g_latlng g = Some (la, ln)) /\
  (forall l, get_location geocoder_ip = (200, LocationFound l) ->
     exists g, geocoder_ip = Ok (Some g) /\
               g_latlng g = Some (loc_lat l, loc_lng l)) /\
  (forall RandomState seeded solver_fit ambient fromtimestamp_date today
          set_iter API_KEY reverse forecast_request,
     fst (get_location geocoder_ip) = 400 <->
     fst (get_forecast RandomState seeded solver_fit ambient fromtimestamp_date
            today set_iter API_KEY geocoder_ip reverse forecast_request
            None None) = 400).
Proof.
  unfold get_location.
  split; [destruct (get_location_from_ip geocoder_ip); simpl; auto |].
  split.
  { unfold get_location_from_ip.
    destruct geocoder_ip as [[g |] | e]; simpl;
      try (split; [discriminate | intros (g' & la & ln & Hg & _); discriminate]).
    destruct (g_latlng g) as [[la ln] |] eqn:Hll; simpl.
    - split; [intros _; eauto | reflexivity].
    - split; [discriminate |].
      intros (g' & la & ln & Hg & Hll'). injection Hg as <-. congruence. }
  split.
  { intros l H.
    destruct (get_location_from_ip geocoder_ip) as [l' |] eqn:Hip; [| discriminate].
    injection H as <-.
    destruct (get_location_from_ip_some _ _ Hip) as (_ & _ & Hg). exact Hg. }
  intros. rewrite (proj2 (get_forecast_status_cases _ _ _ _ _ _ _ _ _ _ _ None None)).
  destruct (get_location_from_ip geocoder_ip); simpl; split;
    try discriminate; try tauto.
  intros [_ H]. discriminate.
Qed.

(** ** More on the command-line flow *)

Lemma train_prediction_model_predict (humidity temperature : Q) :
  predict_feels_like train_prediction_model humidity temperature =
  py_round (0.9 * temperature + 0.03 * humidity) 2.
Proof.
  assert (Hlin : forall p : Q * Q,
             (snd p * 0.9 + (fst p / 100) * 3 == (3 # 100) * fst p + (9 # 10) * snd p)%Q).
  { intros p. field. }
  unfold predict_feels_like, train_prediction_model.
  cbv zeta. rewrite training_feels_like_targets.
  apply py_round_compat.
  rewrite (predict_fit_exact (3 # 100) (9 # 10) _ _ Hlin training_gram_det).
  field.
Qed.

(** X17. The feels-like prediction never decreases when the humidity or the
    temperature increases. *)
Theorem predict_feels_like_monotone (h1 h2 t1 t2 : Q) :
  (h1 <= h2)%Q -> (t1 <= t2)%Q ->
  (predict_feels_like train_prediction_model h1 t1 <=
   predict_feels_like train_prediction_model h2 t2)%Q.
Proof.
  intros Hh Ht. rewrite !train_prediction_model_predict.
  apply py_round_mono. lra.
Qed.

Section ExtractionMore.

Variable title : string -> string.

(** X18. What [extract_weather_info] returns is the empty dictionary or a
    dictionary with exactly the eight keys, in the order of the source,
    whose temperature, wind speed and feels-like entries are numbers and
    whose description is a string: never a partial dictionary. *)
Theorem extract_all_or_nothing (data : json) (info : dict) :
  extract_weather_info title data = Ok info ->
  info = [] \/
  (map fst info = weather_info_keys /\
   exists temperature wind_speed feels_like description,
     dict_lookup "temperature" info = Some (JNum temperature) /\
     dict_lookup "wind_speed" info = Some (JNum wind_speed) /\
     dict_lookup "feels_like" info = Some (JNum feels_like) /\
     dict_lookup "description" info = Some (JStr description)).
Proof.
  unfold extract_weather_info.
  destruct (extract_weather_info_try title data) as [w | e] eqn:Htry.
  - intros H. injection H as <-. right.
    unfold extract_weather_info_try in Htry. repeat bind_inv Htry.
    injection Htry as <-.
    unfold title_method in E16. destruct v15; try discriminate.
    injection E16 as <-. simpl. split; [reflexivity |]. eauto 10.
  - destruct e; try discriminate. intros H. injection H as <-. left. reflexivity.
Qed.

(** X19. On a well-shaped payload that has every required member the
    extraction returns the full dictionary; the city is "Unknown" when the
    payload has no "name" and the country is empty when it has no "sys". *)
Theorem extract_complete_payload (data : json) :
  well_shaped data = true ->
  has_required_fields data = true ->
  exists info,
    extract_weather_info title data = Ok info /\
    map fst info = weather_info_keys /\
    (member data "name" = None ->
     dict_lookup "city" info = Some (JStr "Unknown")) /\
    (member data "sys" = None ->
     dict_lookup "country" info = Some (JStr "")) /\
    dict_lookup "humidity" info =
      match member data "main" with
      | Some m => member m "humidity"
      | None => None
      end.
Proof.
  intros Hs Hr. destruct data as [| | | | | kv]; try discriminate.
  unfold well_shaped in Hs. unfold has_required_fields in Hr.
  unfold is_number in *.
  cbn [member is_object andb] in *.
  destruct (dict_lookup "main" kv) as [[| | | | | m] |] eqn:Emain;
    try discriminate; cbn [absent_or is_object andb member] in *;
    try (rewrite ?andb_false_r in Hs; discriminate).
  destruct (dict_lookup "wind" kv) as [[| | | | | w] |] eqn:Ewind;
    try discriminate; cbn [absent_or is_object andb member] in *;
    try (rewrite ?andb_false_r in Hs; simpl in Hs; discriminate).
  destruct (dict_lookup "weather" kv) as [ws |] eqn:Eweather;
    try discriminate; cbn [absent_or] in *.
  destruct ws as [| | | | [| [| | | | | w0] rest] |];
    cbn [first_weather member] in *;
    try (rewrite ?andb_false_r in Hr; discriminate).
  destruct (dict_lookup "temp" m) as [temp |] eqn:Etemp;
    cbn [present absent_or andb] in *; try discriminate.
  destruct (dict_lookup "humidity" m) as [hum |] eqn:Ehum;
    cbn [present absent_or andb] in *; try discriminate.
  destruct (dict_lookup "speed" w) as [speed |] eqn:Espeed;
    cbn [present absent_or andb] in *; try discriminate.
  destruct (dict_lookup "feels_like" m) as [fl |] eqn:Efl;
    cbn [present absent_or andb] in *; try discriminate.
  destruct (dict_lookup "description" w0) as [descr |] eqn:Edescr;
    cbn [present absent_or andb] in *; try discriminate.
  destruct (dict_lookup "pressure" m) as [pressure |] eqn:Epressure;
    cbn [present absent_or andb] in *; try discriminate.
  destruct (as_number temp) as [qt |] eqn:Eqt;
    try (rewrite ?andb_false_r in Hs; simpl in Hs; discriminate).
  destruct (as_number fl) as [qf |] eqn:Eqf;
    try (rewrite ?andb_false_r in Hs; simpl in Hs; discriminate).
  destruct (as_number speed) as [qs |] eqn:Eqs;
    try (rewrite ?andb_false_r in Hs; simpl in Hs; discriminate).
  destruct descr as [| | | d | |];
    try (rewrite ?andb_false_r in Hs; simpl in Hs; discriminate).
  destruct (dict_lookup "sys" kv) as [[| | | | | sys] |] eqn:Esys;
    try (simpl in Hs; discriminate).
  all: unfold extract_weather_info, extract_weather_info_try.
  all: cbn [get_method getitem getitem0 Py.bind]; unfold dict_get, dict_getitem.
  all: rewrite ?Esys, ?Emain, ?Ewind, ?Eweather; cbn [get_method getitem getitem0 Py.bind].
  all: unfold dict_get, dict_getitem, round_json.
  all: rewrite ?Etemp, ?Ehum, ?Espeed, ?Efl, ?Edescr, ?Epressure;
    cbn [Py.bind]; rewrite ?Eqt, ?Eqs, ?Eqf; cbn [Py.bind title_method].
  all: eexists; split; [reflexivity |]; split; [reflexivity |].
  all: split; [intros Hname; cbn [dict_lookup String.eqb]; simpl; rewrite ?Hname; reflexivity |].
  all: split; [intros Hsys; try discriminate; reflexivity | reflexivity].
Qed.

End ExtractionMore.

Section MainMore.

Variable title : string -> string.

Lemma display_reported (location : string) (weather : dict) (ai : Q)
    (w : dict) (ai' difference : Q) (symbol : string) :
  display_weather_summary location weather ai = Ok (Reported w ai' difference symbol) ->
  w = weather /\ ai' = ai /\
  exists fl feels,
    dict_lookup "feels_like" weather = Some fl /\
    as_number fl = Some feels /\
    difference = (ai - feels)%Q /\
    (symbol = "[UP]" <-> (0 < difference)%Q) /\
    (symbol = "[DOWN]" <-> (difference < 0)%Q) /\
    (symbol = "[SAME]" <-> (difference == 0)%Q).
Proof.
  unfold display_weather_summary. destruct weather as [| entry weather'].
  { discriminate. }
  set (weather := entry :: weather') in *. intros H. repeat bind_inv H.
  destruct (as_number v7) as [feels |] eqn:Hfeels; [| discriminate].
  injection H as <- <- <- <-.
  split; [reflexivity |]. split; [reflexivity |].
  exists v7, feels.
  unfold dict_getitem in E7.
  destruct (dict_lookup "feels_like" weather) as [x |]; [| discriminate].
  injection E7 as ->.
  split; [reflexivity |]. split; [exact Hfeels |]. split; [reflexivity |].
  destruct (Qlt_le_dec 0 (ai - feels)) as [Hpos | Hnonpos].
  - repeat split; intros; try discriminate; try reflexivity; try assumption;
      exfalso; lra.
  - destruct (Qlt_le_dec (ai - feels) 0) as [Hneg | Hnonneg].
    + repeat split; intros; try discriminate; try reflexivity; try assumption;
        exfalso; lra.
    + repeat split; intros; try discriminate; try reflexivity;
        try (exfalso; lra). lra.
Qed.

(** X20. Whenever the program prints a report, the reported dictionary is
    the full dictionary of the extraction, the AI prediction is
    [predict_feels_like] of the trained model at the reported humidity and
    the reported temperature, and the symbol is "[UP]", "[DOWN]" or "[SAME]"
    as the prediction is above, below or equal to the reported feels-like
    value. *)
Theorem run_reported_sound (location : option (string * Q * Q))
    (fetch : Q -> Q -> option json) (w : dict) (ai difference : Q)
    (symbol : string) :
  run title location fetch = Reported w ai difference symbol ->
  map fst w = weather_info_keys /\
  exists hum humidity temperature feels_like,
    dict_lookup "humidity" w = Some hum /\
    as_number hum = Some humidity /\
    dict_lookup "temperature" w = Some (JNum temperature) /\
    dict_lookup "feels_like" w = Some (JNum feels_like) /\
    ai = predict_feels_like train_prediction_model humidity temperature /\
    (symbol = "[UP]" <-> (feels_like < ai)%Q) /\
    (symbol = "[DOWN]" <-> (ai < feels_like)%Q) /\
    (symbol = "[SAME]" <-> (ai == feels_like)%Q).
Proof.
  unfold run. destruct (main title location fetch) as [o | e] eqn:Hmain;
    [| discriminate].
  intros ->. unfold main in Hmain.
  destruct location as [[[city lat] lng] |]; [| discriminate].
  destruct (fetch lat lng) as [weather_raw |]; [| discriminate].
  destruct (negb (truthy weather_raw)); [discriminate |].
  bind_inv Hmain. rename v into info.
  destruct (extract_all_or_nothing title _ _ E)
    as [-> | (Hkeys & t & ws & fl & d & Ht & _ & Hfl & _)].
  { discriminate. }
  bind_inv Hmain. bind_inv Hmain. bind_inv Hmain. bind_inv Hmain.
  apply display_reported in Hmain.
  destruct Hmain as (<- & -> & fl' & feels & Hfl' & Hfeels & Hdiff & Hsym).
  unfold dict_getitem in E0, E1. rewrite Ht in E1. injection E1 as <-.
  destruct (dict_lookup "humidity" w) as [hum |] eqn:Hhum; [| discriminate].
  injection E0 as <-.
  unfold feature in E2, E3.
  destruct (as_number hum) as [humidity |] eqn:Hnum; [| discriminate].
  injection E2 as <-. simpl in E3. injection E3 as <-.
  rewrite Hfl in Hfl'. injection Hfl' as <-. simpl in Hfeels.
  injection Hfeels as <-.
  split; [exact Hkeys |].
  exists hum, humidity, t, fl.
  split; [reflexivity |]. split; [exact Hnum |]. split; [exact Ht |].
  split; [exact Hfl |]. split; [reflexivity |].
  destruct Hsym as (Hup & Hdown & Hsame). rewrite Hdiff in Hup, Hdown, Hsame.
  set (ai := predict_feels_like train_prediction_model humidity t) in *.
  split; [| split].
  - rewrite Hup. split; intros; lra.
  - rewrite Hdown. split; intros; lra.
  - rewrite Hsame. split; intros; lra.
Qed.

(** X21. The top-level handler is reached only through the payload: a run of
    the program ends in a fatal error only after the location was found, the
    key was configured and the provider answered a non-empty payload. A
    failed lookup, a missing key and a failed request all end in an ordinary
    message. *)
Theorem run_program_fatal_only_after_fetch
    (geocoder_ip : result (option GeoResult)) (API_KEY : option string)
    (weather_request : Q -> Q -> result json) (e : exn) :
  run_program title geocoder_ip API_KEY weather_request = Fatal e ->
  exists g city lat lng data,
    geocoder_ip = Ok (Some g) /\
    g_latlng g = Some (lat, lng) /\
    get_user_location geocoder_ip = Some (city, lat, lng) /\
    api_key_missing API_KEY = false /\
    weather_request lat lng = Ok data /\
    truthy data = true.
Proof.
  unfold run_program, run, main, get_user_location, fetch_weather_data.
  destruct geocoder_ip as [[g |] | e0]; try discriminate.
  destruct (g_latlng g) as [[lat lng] |] eqn:Hll; [| discriminate].
  destruct (api_key_missing API_KEY); [discriminate |].
  destruct (weather_request lat lng) as [data | e1] eqn:Hreq; [| discriminate].
  destruct (truthy data) eqn:Htruthy; [| discriminate].
  intros _. do 5 eexists. repeat split; try eassumption; reflexivity.
Qed.

End MainMore.

(** ** The further properties on the sample inputs *)

(** Witness of X1. *)
Lemma grouping_loop_buckets_sample :
  exists daily,
    for_each (group_item Sample.utc_date) Example.items ∅ = Ok daily /\
    daily !! 719165 = None /\
    exists data, daily !! 719164 = Some data /\
                 length (Bucket.temps data) = 3%nat.
Proof.
  assert (H : exists daily,
             for_each (group_item Sample.utc_date) Example.items ∅ = Ok daily)
    by (eexists; vm_compute; reflexivity).
  destruct H as (daily & H).
  destruct (grouping_loop_buckets Sample.utc_date Example.items daily H)
    as (rs & Hrs & _ & Hlook).
  vm_compute in Hrs. injection Hrs as <-.
  exists daily. split; [exact H |]. split.
  - rewrite (Hlook 719165). vm_compute. reflexivity.
  - eexists. split; [rewrite (Hlook 719164); vm_compute; reflexivity |].
    reflexivity.
Defined.

Lemma example_other_days_readings :
  exists rs, readings_of Sample.utc_date Example.payload_other_days = Ok rs /\
    forall d, In d (target_dates Sample.today) ->
              readings_on Sample.readings d = readings_on rs d.
Proof.
  eexists. split; [vm_compute; reflexivity |].
  intros d [<- | [<- | [<- | [<- | []]]]]; vm_compute; reflexivity.
Qed.

(** Witness of X2. *)
Lemma process_ignores_other_days_sample :
  Sample.process Sample.reverse_seen Sample.payload =
  Sample.process Sample.reverse_seen Example.payload_other_days.
Proof.
  destruct example_other_days_readings as (rs & Hrs & Hsame).
  exact (process_ignores_other_days unit (fun _ => tt) Sample.fit tt
           Sample.utc_date Sample.today Sample.reverse_seen
           Sample.payload Example.payload_other_days Sample.readings rs
           sample_readings Hrs Hsame).
Defined.

Lemma example_today_readings :
  exists rs, readings_of Sample.utc_date Example.payload_today = Ok rs /\
    forall d, In d (target_dates Sample.today) -> covered rs d = false.
Proof.
  eexists. split; [vm_compute; reflexivity |].
  intros d [<- | [<- | [<- | [<- | []]]]]; vm_compute; reflexivity.
Qed.

(** Witness of X3. *)
Lemma process_no_target_readings_sample :
  Sample.process Sample.reverse_seen Example.payload_today = Ok [].
Proof.
  destruct example_today_readings as (rs & Hrs & Hnone).
  exact (process_no_target_readings unit (fun _ => tt) Sample.fit tt
           Sample.utc_date Sample.today Sample.reverse_seen
           Example.payload_today rs Hrs Hnone).
Defined.

(** Witness of X4. *)
Lemma summary_icon_first_reading_sample :
  Forall (fun s => exists r rest,
            readings_on Sample.readings (date s) = r :: rest /\
            icon s = r_icon r) Sample.summaries.
Proof.
  apply List.Forall_forall. intros s Hs.
  exact (summary_icon_first_reading unit (fun _ => tt) Sample.fit tt
           Sample.utc_date Sample.today Sample.reverse_seen Sample.payload
           Sample.readings Sample.summaries s
           sample_readings sample_summaries Hs).
Defined.

(** Witness of X5. *)
Lemma summary_of_single_reading_sample :
  exists s r t,
    In s Sample.summaries /\
    readings_on Sample.readings (date s) = [r] /\
    as_number (r_temp r) = Some t /\
    min_temp s = max_temp s /\
    rounded_to 1 (min_temp s) t /\
    condition s = r_descr r /\
    icon s = r_icon r.
Proof.
  assert (Hs : exists s, nth_error Sample.summaries 1 = Some s)
    by (eexists; reflexivity).
  destruct Hs as (s & Hs). pose proof (nth_error_In _ _ Hs) as Hin.
  assert (Hr : exists r, readings_on Sample.readings (date s) = [r] /\
                         is_string (r_descr r) = true).
  { injection Hs as <-. eexists. split; vm_compute; reflexivity. }
  destruct Hr as (r & Hone & Hstr).
  destruct (summary_of_single_reading unit (fun _ => tt) Sample.fit tt
              Sample.utc_date Sample.today Sample.reverse_seen Sample.payload
              Sample.readings Sample.summaries s
              sample_readings sample_summaries Hin r
              reverse_seen_set_order Hone Hstr) as (t & Ht & Hrest).
  exists s, r, t. auto.
Defined.

(** Witness of X6. *)
Lemma summary_condition_unique_mode_sample :
  exists s, In s Sample.summaries /\ condition s = JStr "Clear".
Proof.
  assert (Hs : exists s, nth_error Sample.summaries 0 = Some s)
    by (eexists; reflexivity).
  destruct Hs as (s & Hs). pose proof (nth_error_In _ _ Hs) as Hin.
  exists s. split; [exact Hin |].
  apply (summary_condition_unique_mode unit (fun _ => tt) Sample.fit tt
           Sample.utc_date Sample.today Sample.reverse_seen Sample.payload
           Sample.readings Sample.summaries s
           sample_readings sample_summaries Hin (JStr "Clear")
           reverse_seen_set_order).
  - injection Hs as <-. vm_compute. reflexivity.
  - injection Hs as <-. vm_compute. auto.
  - injection Hs as <-. intros y Hy Hne.
    vm_compute in Hy. destruct Hy as [<- | [<- | [<- | []]]];
      try (exfalso; apply Hne; reflexivity); vm_compute; lia.
Defined.

(** Witness of X7. *)
Lemma summary_fields_one_decimal_sample :
  Forall (fun s => exists k : Z, (rain_probability s == inject_Z k / 10)%Q)
         Sample.summaries.
Proof.
  apply List.Forall_forall. intros s Hs.
  destruct (summary_fields_one_decimal unit (fun _ => tt) Sample.fit tt
              Sample.utc_date Sample.today Sample.reverse_seen Sample.payload
              Sample.readings Sample.summaries s
              sample_readings sample_summaries Hs)
    as (t & ts & w & ws & _ & _ & _ & _ & _ & _ & Hk).
  exact Hk.
Defined.

Lemma sample_percentages (f : Reading -> json) (s : DailySummary) (r : Reading)
    (q : Q) :
  (f = r_humidity \/ f = r_cloud) ->
  In s Sample.summaries ->
  In r (readings_on Sample.readings (date s)) ->
  as_number (f r) = Some q -> (0 <= q <= 100)%Q.
Proof.
  intros Hf Hs Hr Hq.
  destruct Hs as [<- | [<- | [<- | []]]]; vm_compute in Hr;
    repeat (destruct Hr as [<- | Hr]); try destruct Hr;
    destruct Hf as [-> | ->]; simpl in Hq; injection Hq as <-;
    split; unfold Qle; simpl; lia.
Qed.

(** Witness of X8. *)
Lemma summary_percentages_in_range_sample :
  Forall (fun s => 0 <= humidity s <= 100 /\ 0 <= cloud_cover s <= 100)
         Sample.summaries.
Proof.
  apply List.Forall_forall. intros s Hs.
  apply (summary_percentages_in_range unit (fun _ => tt) Sample.fit tt
           Sample.utc_date Sample.today Sample.reverse_seen Sample.payload
           Sample.readings Sample.summaries s
           sample_readings sample_summaries Hs).
  - intros r q. apply (sample_percentages r_humidity); auto.
  - intros r q. apply (sample_percentages r_cloud); auto.
Defined.

(** Witness of X13. *)
Lemma get_forecast_without_key_sample :
  Sample.get_forecast None Sample.ip_found (Some 51.5%Q) (Some (-0.12)%Q) =
    (400, ErrorBody "Could not detect location") \/
  Sample.get_forecast None Sample.ip_found (Some 51.5%Q) (Some (-0.12)%Q) =
    (500, ErrorBody "API key not configured").
Proof.
  exact (get_forecast_without_key unit (fun _ => tt) Sample.fit tt
           Sample.utc_date Sample.today Sample.reverse_seen None
           Sample.ip_found Sample.reverse_fails Sample.forecast_request
           (Some 51.5%Q) (Some (-0.12)%Q) eq_refl).
Defined.

(** Witness of X14. *)
Lemma get_forecast_resolved_sample :
  Sample.get_forecast Sample.api_key Sample.ip_found None None =
    match Sample.process Sample.reverse_seen Sample.payload with
    | Ok forecast => (200, ForecastBody (Some Example.london) forecast)
    | Raise e => (500, ExceptionBody e)
    end.
Proof.
  exact (get_forecast_resolved unit (fun _ => tt) Sample.fit tt
           Sample.utc_date Sample.today Sample.reverse_seen Sample.api_key
           Sample.ip_found Sample.reverse_fails Sample.forecast_request
           None None Example.london Sample.payload
           eq_refl eq_refl eq_refl eq_refl).
Defined.

Lemma sample_forecast_ok :
  Sample.get_forecast Sample.api_key Sample.ip_found None None =
    (200, ForecastBody (Some Example.london) Sample.summaries).
Proof. vm_compute. reflexivity. Qed.

(** Witness of X15. *)
Lemma get_forecast_ok_response_sample :
  exists forecast,
    Sample.process Sample.reverse_seen Sample.payload = Ok forecast /\
    (length forecast <= 4)%nat /\
    StronglySorted Z.lt (map date forecast).
Proof.
  destruct (get_forecast_ok_response unit (fun _ => tt) Sample.fit tt
              Sample.utc_date Sample.today Sample.reverse_seen Sample.api_key
              Sample.ip_found Sample.reverse_fails Sample.forecast_request
              None None _ sample_forecast_ok)
    as (l & fd & fc & _ & _ & Hreq & Hp & _ & Hlen & Hsorted & _).
  injection Hreq as <-. exists fc. auto.
Defined.

(** Witness of X17. *)
Lemma predict_feels_like_monotone_sample :
  (predict_feels_like train_prediction_model 50 20 <=
   predict_feels_like train_prediction_model 60 25)%Q.
Proof.
  apply predict_feels_like_monotone; unfold Qle; simpl; lia.
Defined.

Lemma sample_extraction :
  exists info, extract_weather_info Sample.ascii_title Sample.current = Ok info.
Proof. eexists. vm_compute. reflexivity. Qed.

(** Witness of X18. *)
Lemma extract_all_or_nothing_sample :
  exists info,
    extract_weather_info Sample.ascii_title Sample.current = Ok info /\
    (info = [] \/ map fst info = weather_info_keys).
Proof.
  destruct sample_extraction as (info & Hinfo). exists info.
  split; [exact Hinfo |].
  destruct (extract_all_or_nothing Sample.ascii_title Sample.current info Hinfo)
    as [H | [H _]]; auto.
Defined.

(** Witness of X19. *)
Lemma extract_complete_payload_sample :
  exists info,
    extract_weather_info Sample.ascii_title Sample.current = Ok info /\
    map fst info = weather_info_keys.
Proof.
  destruct (extract_complete_payload Sample.ascii_title Sample.current
              eq_refl eq_refl) as (info & Hinfo & Hkeys & _).
  exists info. auto.
Defined.

Lemma sample_run_reported :
  exists w ai difference symbol,
    Sample.run Sample.current = Reported w ai difference symbol.
Proof. do 4 eexists. vm_compute. reflexivity. Qed.

(** Witness of X20. *)
Lemma run_reported_sound_sample :
  exists w ai difference symbol,
    Sample.run Sample.current = Reported w ai difference symbol /\
    map fst w = weather_info_keys /\
    exists feels_like,
      dict_lookup "feels_like" w = Some (JNum feels_like) /\
      (symbol = "[UP]" <-> (feels_like < ai)%Q).
Proof.
  destruct sample_run_reported as (w & ai & difference & symbol & Hrun).
  exists w, ai, difference, symbol. split; [exact Hrun |].
  destruct (run_reported_sound Sample.ascii_title _ _ _ _ _ _ Hrun)
    as (Hkeys & hum & h & t & fl & _ & _ & _ & Hfl & _ & Hup & _).
  split; [exact Hkeys |]. exists fl. auto.
Defined.

Lemma sample_program_fatal :
  run_program Sample.ascii_title Sample.ip_found Sample.api_key
    (fun _ _ => Ok Sample.current_without_wind) =
  Fatal (KeyError (JStr "humidity")).
Proof. vm_compute. reflexivity. Qed.

(** Witness of X21. *)
Lemma run_program_fatal_only_after_fetch_sample :
  exists city lat lng,
    get_user_location Sample.ip_found = Some (city, lat, lng) /\
    api_key_missing Sample.api_key = false.
Proof.
  destruct (run_program_fatal_only_after_fetch Sample.ascii_title _ _ _ _
              sample_program_fatal)
    as (g & city & lat & lng & data & _ & _ & Hloc & Hkey & _).
  exists city, lat, lng. auto.
Defined.

(** ** The hash order and the classifier's inputs *)

Section HashOrder.

Variable RandomState : Type.
Variable seeded : Z -> RandomState.
Variable solver_fit : RandomState -> list (list Q) -> list Z -> LogisticRegression.
Variable ambient : RandomState.
Variable fromtimestamp_date : Q -> result Z.
Variable today : Z.

Local Abbreviation model :=
  (train_rain_prediction_model RandomState seeded solver_fit ambient).
Local Abbreviation readings := (readings_of fromtimestamp_date).
Local Abbreviation process :=
  (process_forecast_data RandomState seeded solver_fit ambient
     fromtimestamp_date today).

Lemma summarize_same_but_condition (set_iter1 set_iter2 : list json -> list json)
    (m : LogisticRegression) (d : Z) (data : Bucket.t) (s1 s2 : DailySummary) :
  summarize set_iter1 m d data = Ok s1 ->
  summarize set_iter2 m d data = Ok s2 ->
  without_condition s1 = without_condition s2.
Proof.
  unfold summarize. intros H1 H2.
  repeat bind_inv H1. repeat bind_inv H2.
  injection H1 as <-. injection H2 as <-.
  repeat match goal with
         | A : ?e = Ok ?x, B : ?e = Ok ?y |- _ =>
             rewrite A in B; injection B as <-
         end.
  reflexivity.
Qed.

Lemma summary_loop_same_but_condition
    (set_iter1 set_iter2 : list json -> list json) (m : LogisticRegression)
    (daily : gmap Z Bucket.t) (offsets : list Z)
    (acc1 acc2 res1 res2 : list DailySummary) :
  map without_condition acc1 = map without_condition acc2 ->
  for_each (summary_step today set_iter1 m daily) offsets acc1 = Ok res1 ->
  for_each (summary_step today set_iter2 m daily) offsets acc2 = Ok res2 ->
  map without_condition res1 = map without_condition res2.
Proof.
  revert acc1 acc2. induction offsets as [| i offsets IH];
    intros acc1 acc2 Hacc H1 H2; simpl in H1, H2.
  - injection H1 as <-. injection H2 as <-. exact Hacc.
  - bind_inv H1. bind_inv H2. unfold summary_step in E, E0.
    destruct (daily !! (today + i)) as [data |].
    + bind_inv E. bind_inv E0. injection E as <-. injection E0 as <-.
      eapply IH; [| exact H1 | exact H2].
      rewrite !map_app, Hacc. simpl.
      rewrite (summarize_same_but_condition _ _ _ _ _ _ _ E1 E2). reflexivity.
    + injection E as <-. injection E0 as <-.
      eapply IH; [exact Hacc | exact H1 | exact H2].
Qed.

(** X9. The iteration order of the set of descriptions reaches nothing but
    the condition label: under two orders, the results agree on every other
    field of every summary. *)
Theorem process_set_order_only_in_condition
    (set_iter1 set_iter2 : list json -> list json) (forecast_data : json)
    (res1 res2 : list DailySummary) :
  process set_iter1 forecast_data = Ok res1 ->
  process set_iter2 forecast_data = Ok res2 ->
  map without_condition res1 = map without_condition res2.
Proof.
  rewrite !process_forecast_data_unfold. intros H1 H2.
  bind_inv H1. bind_inv H2. rewrite E in E0. injection E0 as <-.
  eapply summary_loop_same_but_condition; [| exact H1 | exact H2].
  reflexivity.
Qed.

(** X10. The classifier is asked once per day, with the day's means of
    humidity, cloud cover, pressure and wind speed, in that order. *)
Theorem summary_rain_probability_of_means (set_iter : list json -> list json)
    (forecast_data : json) (rs : list Reading) (res : list DailySummary)
    (s : DailySummary) :
  readings forecast_data = Ok rs ->
  process set_iter forecast_data = Ok res ->
  In s res ->
  exists h hs c cs p ps w ws,
    as_numbers (map r_humidity (readings_on rs (date s))) = Some (h :: hs) /\
    as_numbers (map r_cloud (readings_on rs (date s))) = Some (c :: cs) /\
    as_numbers (map r_pressure (readings_on rs (date s))) = Some (p :: ps) /\
    as_numbers (map r_wind (readings_on rs (date s))) = Some (w :: ws) /\
    rain_probability s =
      predict_rain_probability model (Qmean (h :: hs)) (Qmean (c :: cs))
        (Qmean (p :: ps)) (Qmean (w :: ws)).
Proof.
  intros Hrs Hres Hin.
  pose proof (emitted_summary_fields _ _ _ _ _ _ _ _ _ _ _ Hrs Hres Hin) as Hsum.
  destruct (summarize_averages _ _ _ _ _ Hsum)
    as (h & hs & c & cs & p & ps & w & ws & Hh & Hc & Hp & Hw & _ & _ & _ & Hrp).
  cbn [Bucket.humidities Bucket.cloud_cover Bucket.pressures Bucket.wind_speeds] in *.
  exists h, hs, c, cs, p, ps, w, ws. auto 10.
Qed.

End HashOrder.

(** Witness of X9. *)
Lemma process_set_order_only_in_condition_sample :
  exists res1 res2,
    Sample.process Sample.reverse_seen Sample.tie_payload = Ok res1 /\
    Sample.process first_seen Sample.tie_payload = Ok res2 /\
    map condition res1 <> map condition res2 /\
    map without_condition res1 = map without_condition res2.
Proof.
  assert (H1 : exists res1,
             Sample.process Sample.reverse_seen Sample.tie_payload = Ok res1)
    by (eexists; vm_compute; reflexivity).
  assert (H2 : exists res2,
             Sample.process first_seen Sample.tie_payload = Ok res2)
    by (eexists; vm_compute; reflexivity).
  destruct H1 as (res1 & H1). destruct H2 as (res2 & H2).
  exists res1, res2. split; [exact H1 |]. split; [exact H2 |]. split.
  - vm_compute in H1, H2. injection H1 as <-. injection H2 as <-.
    vm_compute. discriminate.
  - exact (process_set_order_only_in_condition unit (fun _ => tt) Sample.fit tt
             Sample.utc_date Sample.today _ _ _ _ _ H1 H2).
Defined.

(** Witness of X10. *)
Lemma summary_rain_probability_of_means_sample :
  Forall (fun s => exists h c p w : Q,
            rain_probability s =
            predict_rain_probability
              (train_rain_prediction_model unit (fun _ => tt) Sample.fit tt)
              h c p w) Sample.summaries.
Proof.
  apply List.Forall_forall. intros s Hs.
  destruct (summary_rain_probability_of_means unit (fun _ => tt) Sample.fit tt
              Sample.utc_date Sample.today Sample.reverse_seen Sample.payload
              Sample.readings Sample.summaries s
              sample_readings sample_summaries Hs)
    as (h & hs & c & cs & p & ps & w & ws & _ & _ & _ & _ & Hrp).
  eauto.
Defined.
